(** * The caching request layer of m3u2spotify (syncify / musify)

    A shallow embedding of
      - [musify/api/cache/backend/sqlite.py]  ([SQLiteTable], [SQLiteCache]),
      - [musify/api/cache/session.py]         ([CachedSession]),
      - [syncify/utils_new/api.py]            ([APIAuthoriser]),
    together with the request handler exercised by [tests/api/test_request.py],
    and the properties the specification states about them.

    Conventions of the embedding:
      - a Python value is a term of [Py.value]; [None] is the constructor
        [PNone], so "returns absent" reads "returns [PNone]";
      - a Python exception is a term of [exn]; a computation that may raise
        returns a [result];
      - timestamps ([datetime.now()], stored and compared by SQLite as the
        texts [isoformat()] makes of them) are integers counting
        microseconds; the order of those texts is the order of the instants;
      - floating point numbers are left out of [Py.value]: a timestamp in
        seconds ([datetime.now().timestamp()]) is an integer as well.

    The definitions come first, module by module as the sources have them,
    then sample objects, then the facts. *)

From Stdlib Require Import ZArith String Ascii List Bool Lia DecimalString.
From stdpp Require Import base option gmap strings list fin_maps.

Set Warnings "-register-all".

Local Open Scope string_scope.
Local Open Scope Z_scope.

(* ===================================================================== *)
(** * Python values, exceptions and results *)
(* ===================================================================== *)

Module Py.

Inductive value : Type :=
| PNone
| PBool (b : bool)
| PInt (z : Z)
| PStr (s : string)
| PList (items : list value)
| PDict (items : list (string * value)).

(** [isinstance(v, str)] *)
Definition is_str (v : value) : bool :=
  match v with PStr _ => true | _ => false end.

(** [isinstance(v, dict)] *)
Definition is_dict (v : value) : bool :=
  match v with PDict _ => true | _ => false end.

(** [v is None] *)
Definition is_none (v : value) : bool :=
  match v with PNone => true | _ => false end.

(** A [dict] with [str] keys keeps its insertion order: an association
    list without repeated keys. *)
Definition dict : Type := list (string * value).

(** [k in d] *)
Fixpoint dict_mem (k : string) (d : dict) : bool :=
  match d with
  | [] => false
  | (k', _) :: rest => if String.eqb k k' then true else dict_mem k rest
  end.

(** [d.get(k)] *)
Fixpoint dict_get (k : string) (d : dict) : option value :=
  match d with
  | [] => None
  | (k', v) :: rest => if String.eqb k k' then Some v else dict_get k rest
  end.

(** [d[k] = v]: an existing key keeps its place, a new one goes last. *)
Fixpoint dict_set (k : string) (v : value) (d : dict) : dict :=
  match d with
  | [] => [(k, v)]
  | (k', v') :: rest =>
      if String.eqb k k' then (k', v) :: rest else (k', v') :: dict_set k v rest
  end.

End Py.
Export Py.

(** The exceptions the modelled code raises or lets through. *)
Inductive exn : Type :=
| TypeError
| AttributeError
| KeyError
| ValueError
| FileNotFoundError
| JSONDecodeError
| ConnectionError            (* builtin, raised by [APIAuthoriser.auth] *)
| TransportError             (* a failure of the HTTP library *)
| SocketTimeout
| InvalidURL
| ProgrammingError           (* sqlite3: wrong number of bindings *)
| OperationalError           (* sqlite3: no such table *)
| IntegrityError             (* sqlite3: NOT NULL constraint failed *)
| CacheError (msg : string)
| APIError (msg : string).

Inductive result (A : Type) : Type :=
| Ok (a : A)
| Raise (e : exn).
Arguments Ok {A} a.
Arguments Raise {A} e.

Definition is_ok {A} (r : result A) : bool :=
  match r with Ok _ => true | Raise _ => false end.

(* ===================================================================== *)
(** * The [json] module *)
(* ===================================================================== *)

(** What the code uses of Python's [json]: [dumps(v, indent=2)] and [loads].
    [loads] answers [None] where Python raises [JSONDecodeError]. *)
Class JsonLib : Type := {
  json_dumps : Py.value -> string;
  json_loads : string -> option Py.value
}.

(** A concrete reading of the library for documents without floats, over
    texts of Latin-1 code points. *)
Module Json.

Local Open Scope char_scope.

Definition nl : ascii := "010".
Definition cr : ascii := "013".
Definition tab : ascii := "009".
Definition bs : ascii := "008".
Definition ff : ascii := "012".
Definition dquote : ascii := "034".
Definition bslash : ascii := "\".

Definition hex_digit (n : N) : ascii :=
  if (n <? 10)%N then ascii_of_N (48 + n) else ascii_of_N (87 + n).

Definition hex_value (c : ascii) : option N :=
  let n := N_of_ascii c in
  if ((48 <=? n) && (n <=? 57))%N then Some (n - 48)%N
  else if ((97 <=? n) && (n <=? 102))%N then Some (n - 87)%N
  else if ((65 <=? n) && (n <=? 70))%N then Some (n - 55)%N
  else None.

(** [ensure_ascii]: everything outside [' '..'~'] is escaped. *)
Definition escape_char (c : ascii) : string :=
  let n := N_of_ascii c in
  if Ascii.eqb c dquote then String bslash (String dquote EmptyString)
  else if Ascii.eqb c bslash then String bslash (String bslash EmptyString)
  else if Ascii.eqb c nl then String bslash (String "n" EmptyString)
  else if Ascii.eqb c cr then String bslash (String "r" EmptyString)
  else if Ascii.eqb c tab then String bslash (String "t" EmptyString)
  else if Ascii.eqb c bs then String bslash (String "b" EmptyString)
  else if Ascii.eqb c ff then String bslash (String "f" EmptyString)
  else if ((32 <=? n) && (n <=? 126))%N then String c EmptyString
  else String bslash (String "u" (String "0" (String "0"
         (String (hex_digit (n / 16)) (String (hex_digit (n mod 16)) EmptyString))))).

Fixpoint escape (s : string) : string :=
  match s with
  | EmptyString => EmptyString
  | String c rest => (escape_char c ++ escape rest)%string
  end.

Definition quote (s : string) : string :=
  String dquote (escape s ++ String dquote EmptyString).

Definition dump_int (z : Z) : string := NilZero.string_of_int (Z.to_int z).

Fixpoint spaces (n : nat) : string :=
  match n with O => EmptyString | S k => String " " (spaces k) end.

Definition newline (ind : nat) : string := String nl (spaces ind).

Fixpoint join (sep : string) (parts : list string) : string :=
  match parts with
  | [] => EmptyString
  | [p] => p
  | p :: rest => (p ++ sep ++ join sep rest)%string
  end.

(** [json.dumps(v, indent=2)], at nesting depth [ind / 2]. *)
Fixpoint dumps_at (ind : nat) (v : Py.value) : string :=
  match v with
  | PNone => "null"%string
  | PBool true => "true"%string
  | PBool false => "false"%string
  | PInt z => dump_int z
  | PStr s => quote s
  | PList [] => "[]"%string
  | PList items =>
      ("[" ++ newline (2 + ind)
        ++ join ("," ++ newline (2 + ind)) (List.map (dumps_at (2 + ind)) items)
        ++ newline ind ++ "]")%string
  | PDict [] => "{}"%string
  | PDict items =>
      ("{" ++ newline (2 + ind)
        ++ join ("," ++ newline (2 + ind))
             (List.map (fun kv => (quote (fst kv) ++ ": " ++ dumps_at (2 + ind) (snd kv))%string)
                       items)
        ++ newline ind ++ "}")%string
  end.

Definition dumps (v : Py.value) : string := dumps_at 0 v.

(** ** Reading *)

Definition is_ws (c : ascii) : bool :=
  Ascii.eqb c " " || Ascii.eqb c nl || Ascii.eqb c cr || Ascii.eqb c tab.

Fixpoint skip_ws (s : string) : string :=
  match s with
  | String c rest => if is_ws c then skip_ws rest else s
  | EmptyString => s
  end.

Definition digit_value (c : ascii) : option Z :=
  let n := N_of_ascii c in
  if ((48 <=? n) && (n <=? 57))%N then Some (Z.of_N (n - 48)) else None.

(** The digits at the head of [s]: how many, their value, and the rest. *)
Fixpoint read_digits (acc : Z) (count : nat) (s : string) : Z * nat * string :=
  match s with
  | String c rest =>
      match digit_value c with
      | Some d => read_digits (10 * acc + d)%Z (S count) rest
      | None => (acc, count, s)
      end
  | EmptyString => (acc, count, s)
  end.

Definition starts_fraction (s : string) : bool :=
  match s with
  | String c _ => Ascii.eqb c "." || Ascii.eqb c "e" || Ascii.eqb c "E"
  | EmptyString => false
  end.

(** An unsigned JSON integer: no leading zero, no fraction or exponent. *)
Definition read_nat (s : string) : option (Z * string) :=
  match s with
  | String c rest =>
      match digit_value c with
      | Some 0%Z => if starts_fraction rest then None else Some (0%Z, rest)
      | Some d =>
          let '(n, _, rest') := read_digits d 1 rest in
          if starts_fraction rest' then None else Some (n, rest')
      | None => None
      end
  | EmptyString => None
  end.

Definition read_int (s : string) : option (Z * string) :=
  match s with
  | String "-" rest =>
      match read_nat rest with
      | Some (n, rest') => Some ((- n)%Z, rest')
      | None => None
      end
  | _ => read_nat s
  end.

(** The body of a string literal, after the opening quote. *)
Fixpoint read_string (s : string) : option (string * string) :=
  match s with
  | EmptyString => None
  | String c rest =>
      if Ascii.eqb c dquote then Some (EmptyString, rest)
      else if Ascii.eqb c bslash then
        match rest with
        | String e rest' =>
            let simple (x : ascii) :=
              match read_string rest' with
              | Some (body, r) => Some (String x body, r)
              | None => None
              end in
            if Ascii.eqb e "n" then simple nl
            else if Ascii.eqb e "r" then simple cr
            else if Ascii.eqb e "t" then simple tab
            else if Ascii.eqb e "b" then simple bs
            else if Ascii.eqb e "f" then simple ff
            else if Ascii.eqb e "/" then simple "/"
            else if Ascii.eqb e dquote then simple dquote
            else if Ascii.eqb e bslash then simple bslash
            else if Ascii.eqb e "u" then
              match rest' with
              | String h1 (String h2 (String h3 (String h4 rest''))) =>
                  match hex_value h1, hex_value h2, hex_value h3, hex_value h4 with
                  | Some 0%N, Some 0%N, Some a, Some b =>
                      match read_string rest'' with
                      | Some (body, r) => Some (String (ascii_of_N (16 * a + b)) body, r)
                      | None => None
                      end
                  | _, _, _, _ => None
                  end
              | _ => None
              end
            else None
        | EmptyString => None
        end
      else if (N_of_ascii c <? 32)%N then None
      else
        match read_string rest with
        | Some (body, r) => Some (String c body, r)
        | None => None
        end
  end.

Definition expect (word : string) (v : Py.value) (s : string) : option (Py.value * string) :=
  if String.prefix word s
  then Some (v, String.substring (String.length word) (String.length s - String.length word) s)
  else None.

Fixpoint read_value (fuel : nat) (s : string) : option (Py.value * string) :=
  match fuel with
  | O => None
  | S fuel' =>
      match skip_ws s with
      | EmptyString => None
      | String c rest =>
          if Ascii.eqb c "n" then expect "ull" PNone rest
          else if Ascii.eqb c "t" then expect "rue" (PBool true) rest
          else if Ascii.eqb c "f" then expect "alse" (PBool false) rest
          else if Ascii.eqb c dquote then
            match read_string rest with
            | Some (body, r) => Some (PStr body, r)
            | None => None
            end
          else if Ascii.eqb c "[" then
            match skip_ws rest with
            | String "]" r => Some (PList [], r)
            | _ =>
                match read_items fuel' rest with
                | Some (items, r) => Some (PList items, r)
                | None => None
                end
            end
          else if Ascii.eqb c "{" then
            match skip_ws rest with
            | String "}" r => Some (PDict [], r)
            | _ =>
                match read_members fuel' [] rest with
                | Some (items, r) => Some (PDict items, r)
                | None => None
                end
            end
          else
            match read_int (String c rest) with
            | Some (n, r) => Some (PInt n, r)
            | None => None
            end
      end
  end

with read_items (fuel : nat) (s : string) : option (list Py.value * string) :=
  match fuel with
  | O => None
  | S fuel' =>
      match read_value fuel' s with
      | Some (v, r) =>
          match skip_ws r with
          | String "," r' =>
              match read_items fuel' r' with
              | Some (vs, r'') => Some (v :: vs, r'')
              | None => None
              end
          | String "]" r' => Some ([v], r')
          | _ => None
          end
      | None => None
      end
  end

with read_members (fuel : nat) (acc : Py.dict) (s : string) : option (Py.dict * string) :=
  match fuel with
  | O => None
  | S fuel' =>
      match skip_ws s with
      | String "034" r0 =>
          match read_string r0 with
          | Some (k, r1) =>
              match skip_ws r1 with
              | String ":" r2 =>
                  match read_value fuel' r2 with
                  | Some (v, r3) =>
                      let acc' := dict_set k v acc in
                      match skip_ws r3 with
                      | String "," r4 => read_members fuel' acc' r4
                      | String "}" r4 => Some (acc', r4)
                      | _ => None
                      end
                  | None => None
                  end
              | _ => None
              end
          | None => None
          end
      | _ => None
      end
  end.

(** [json.loads]: one document, then only white space. *)
Definition loads (s : string) : option Py.value :=
  match read_value (2 * S (String.length s)) s with
  | Some (v, rest) =>
      match skip_ws rest with
      | EmptyString => Some v
      | _ => None
      end
  | None => None
  end.

End Json.

#[export] Instance python_json : JsonLib :=
  {| json_dumps := Json.dumps; json_loads := Json.loads |}.

(* ===================================================================== *)
(** * Requests and responses *)
(* ===================================================================== *)

Module Http.

Record Request : Type := {
  method : string;
  url : string
}.

Record Response : Type := {
  request : Request;
  status_code : Z;
  headers : list (string * string);
  text : string
}.

End Http.
Export Http.

(** A small error monad for the code that may raise. *)
#[export] Instance result_ret : MRet result := fun _ a => Ok a.
#[export] Instance result_bind : MBind result :=
  fun _ _ f r => match r with Ok a => f a | Raise e => Raise e end.

(* ===================================================================== *)
(** * [musify/api/cache/backend/sqlite.py] *)
(* ===================================================================== *)

Module SQLite.

(** ** The database behind an [aiosqlite.Connection] *)

(** What can be bound to a [?] placeholder and stored in a column. *)
Inductive sql_value : Type :=
| SqlNull
| SqlInt (z : Z)
| SqlText (s : string).

(** [K: tuple[Any, ...]]: the values of the primary key columns. *)
Definition key : Type := list sql_value.

(** One row of a repository's table: the primary key columns, then
    [name], [cached_at], [expires_at] and [data]. *)
Record row : Type := {
  row_key : key;
  row_name : option string;
  cached_at : Z;
  expires_at : Z;
  data : option string
}.

Definition table : Type := list row.

(** The connection: the tables of the database by name. Uncommitted
    writes are visible to the connection that made them, so [commit] does
    not show in the model; neither does the index on [expires_at], which
    changes no query's answer. *)
Abbreviation connection := (gmap string table).

(** [column = ?]: a comparison with NULL is never true. Values are
    compared as they were bound: the keys that requests derive are text,
    text, integer, integer, as the columns are declared. *)
Definition sql_eqb (a b : sql_value) : bool :=
  match a, b with
  | SqlInt x, SqlInt y => Z.eqb x y
  | SqlText x, SqlText y => String.eqb x y
  | _, _ => false
  end.

(** [k1 = ? AND k2 = ? AND ...] over the primary key columns. *)
Fixpoint key_eqb (stored bound : key) : bool :=
  match stored, bound with
  | [], [] => true
  | a :: stored', b :: bound' => sql_eqb a b && key_eqb stored' bound'
  | _, _ => false
  end.

Definition is_null (v : sql_value) : bool :=
  match v with SqlNull => true | _ => false end.

(** [connection.execute(query, params)] up to the point where the
    statement runs: it is prepared against an existing table
    ([OperationalError] otherwise) and must be given as many parameters as
    it has placeholders ([ProgrammingError] otherwise). *)
Definition execute (db : connection) (table_name : string)
    (placeholders bound : nat) : result table :=
  match db !! table_name with
  | None => Raise OperationalError
  | Some t => if Nat.eqb placeholders bound then Ok t else Raise ProgrammingError
  end.

(** ** [RequestSettings] and [PaginatedRequestSettings]

    The two classes are abstract in [musify/api/cache/backend/base.py];
    a family supplies the extraction rules. *)
Record PaginationRules : Type := {
  get_offset : string -> Z;
  get_limit : string -> Z
}.

Record RequestSettings : Type := {
  name : string;
  get_id : string -> option string;
  get_name : Py.value -> option string;
  (** [Some] exactly for an instance of [PaginatedRequestSettings] *)
  pagination : option PaginationRules
}.

(** ** [SQLiteTable] *)

Record SQLiteTable : Type := {
  settings : RequestSettings;
  (** the [expire] argument of the constructor, a [timedelta] *)
  ttl : Z
}.

(** [RepositoryRequestType[K]]: a request, a response, or the key itself. *)
Inductive RepositoryRequest : Type :=
| OfRequest (r : Request)
| OfResponse (r : Response)
| OfKey (k : key).

Section Repository.

Context `{JsonLib}.
Variable repo : SQLiteTable.

(** Modelled from the spec: the [expire] property of [ResponseRepository]
    ([base.py], which defines it, is not among the sources):
    "[expires_at = cached_at + configured_ttl] at write time", the
    current time plus the configured lifetime. *)
Definition expire (now : Z) : Z := now + ttl repo.

Definition _primary_key_columns : list (string * string) :=
  ([("method", "VARCHAR(10)"); ("id", "VARCHAR(50)")]
   ++ match pagination (settings repo) with
      | Some _ => [("offset", "INT2"); ("size", "INT2")]
      | None => []
      end)%list.

Definition key_of_request (r : Request) : option key :=
  match get_id (settings repo) (url r) with
  | None | Some EmptyString => None                       (* if not id_: return *)
  | Some id_ =>
      Some ([SqlText (method r); SqlText id_]
            ++ match pagination (settings repo) with
               | Some p => [SqlInt (get_offset p (url r)); SqlInt (get_limit p (url r))]
               | None => []
               end)%list
  end.

Definition get_key_from_request (req : RepositoryRequest) : option key :=
  match req with
  | OfResponse resp => key_of_request (request resp)
  | OfRequest r => key_of_request r
  | OfKey k => Some k                                     (* `request` is the key *)
  end.

(** [not key]: [None] and the empty tuple are falsy. *)
Definition falsy_key (k : option key) : bool :=
  match k with None | Some [] => true | Some (_ :: _) => false end.

Definition live (now : Z) (r : row) : bool := now <? expires_at r.

Definition count (expired : bool) (now : Z) (db : connection) : result nat :=
  t ← execute db (name (settings repo)) (if expired then 0 else 1) (if expired then 0 else 1);
  Ok (length (List.filter (fun r => expired || live now r) t)).

Definition contains (req : RepositoryRequest) (now : Z) (db : connection) : result bool :=
  match get_key_from_request req with
  | None => Raise TypeError                               (* *key with key = None *)
  | Some k =>
      t ← execute db (name (settings repo))
            (1 + length _primary_key_columns) (1 + length k);
      Ok (Nat.ltb 0 (length (List.filter (fun r => live now r && key_eqb (row_key r) k) t)))
  end.

Definition deserialize (value : Py.value) : Py.value :=
  match value with
  | PDict _ => value
  | PStr s => match json_loads s with Some v => v | None => PNone end
  | _ => PNone                                            (* TypeError, caught *)
  end.

Definition serialize (value : Py.value) : option string :=
  match value with
  | PStr s => match json_loads s with Some _ => Some s | None => None end
  | _ => Some (json_dumps value)
  end.

Definition get_response (req : RepositoryRequest) (now : Z) (db : connection)
  : result Py.value :=
  let k := get_key_from_request req in
  if falsy_key k then Ok PNone
  else
    let k := default [] k in
    t ← execute db (name (settings repo))
          (1 + length _primary_key_columns) (1 + length k);
    match List.find (fun r => bool_decide (is_Some (data r)) && live now r
                              && key_eqb (row_key r) k) t with
    | None => Ok PNone
    | Some r => Ok (deserialize (from_option PStr PNone (data r)))
    end.

(** [INSERT OR REPLACE]: the rows in conflict on the primary key go, the
    new row comes in. *)
Definition insert_or_replace (r : row) (t : table) : table :=
  (List.filter (fun r' => negb (key_eqb (row_key r') (row_key r))) t ++ [r])%list.

(** The two clock readings are those of [datetime.now()] for
    [cached_at] and of the [expire] property, in this order. *)
Definition _set_item_from_key_value_pair (k : key) (value : Py.value)
    (now_cached now_expire : Z) (db : connection) : result connection :=
  let columns := (length _primary_key_columns + 4)%nat in
  let r := {| row_key := k;
              row_name := get_name (settings repo) value;
              cached_at := now_cached;
              expires_at := expire now_expire;
              data := serialize value |} in
  t ← execute db (name (settings repo)) columns (length k + 4);
  if existsb is_null k then Raise IntegrityError        (* NOT NULL columns *)
  else Ok (<[name (settings repo) := insert_or_replace r t]> db).

Definition delete_response (req : RepositoryRequest) (db : connection)
  : result (bool * connection) :=
  (* aiosqlite binds no parameter at all when given None *)
  let params := default [] (get_key_from_request req) in
  t ← execute db (name (settings repo)) (length _primary_key_columns) (length params);
  let kept := List.filter (fun r => negb (key_eqb (row_key r) params)) t in
  Ok (Nat.ltb (length kept) (length t), <[name (settings repo) := kept]> db).

(** [__aiter__]: the keys and the raw data of the rows that have not
    expired, one pair per row ([row[:-1], row[-1]]). The order in which
    SQLite hands out the rows is not fixed by the query; the list is in the
    order of the table. *)
Definition __aiter__ (now : Z) (db : connection) : result (list (key * option string)) :=
  t ← execute db (name (settings repo)) 1 1;
  Ok (List.map (fun r => (row_key r, data r)) (List.filter (live now) t)).

(** What the DDL of [create] makes SQLite keep for every table of this
    repository: each primary key column is [NOT NULL], and
    [PRIMARY KEY (...)] admits one row per key. *)
Definition well_keyed (t : table) : Prop :=
  Forall (fun r => length (row_key r) = length _primary_key_columns
                   /\ existsb is_null (row_key r) = false) t
  /\ NoDup (List.map row_key t).

(** Modelled from the spec: [ResponseRepository.save_response], defined
    in [base.py], which is not among the sources: "write the fresh
    response into the resolved Repository keyed by the original
    request". The key is the one derived from the response's request;
    the payload is the response's text; without a key nothing is
    written. *)
Definition save_response (resp : Response) (now_cached now_expire : Z)
    (db : connection) : result connection :=
  match get_key_from_request (OfResponse resp) with
  | None => Ok db
  | Some k => _set_item_from_key_value_pair k (PStr (text resp)) now_cached now_expire db
  end.

(** [SQLiteTable.create] runs [CREATE TABLE IF NOT EXISTS]. *)
Definition create_table (db : connection) : connection :=
  match db !! name (settings repo) with
  | Some _ => db
  | None => <[name (settings repo) := []]> db
  end.

End Repository.

(** ** [SQLiteCache] *)

Record SQLiteCache : Type := {
  cache_name : string;
  (** [_repositories] *)
  repositories : gmap string SQLiteTable;
  cache_expire : Z;
  repository_getter : option (gmap string SQLiteTable -> string -> option SQLiteTable)
}.

Definition with_repositories (cache : SQLiteCache) (m : gmap string SQLiteTable)
  : SQLiteCache :=
  {| cache_name := cache_name cache;
     repositories := m;
     cache_expire := cache_expire cache;
     repository_getter := repository_getter cache |}.

(** Modelled from the spec: [ResponseCache.__contains__], defined in
    [base.py], which is not among the sources: a Cache "owns zero or more
    Repositories, keyed by family name"; [n in cache] asks whether a
    Repository is registered under [n]. *)
Definition cache_contains (cache : SQLiteCache) (n : string) : bool :=
  bool_decide (is_Some (repositories cache !! n)).

Definition create (settings : RequestSettings) (expire : Z) (db : connection)
  : SQLiteTable * connection :=
  let repository := {| settings := settings; ttl := expire |} in
  (repository, create_table repository db).

Definition create_repository (cache : SQLiteCache) (settings : RequestSettings)
    (db : connection) : result SQLiteTable * SQLiteCache * connection :=
  if cache_contains cache (name settings)
  then (Raise (CacheError ("Repository already exists: " ++ name settings)), cache, db)
  else
    let '(repository, db') := create settings (cache_expire cache) db in
    (Ok repository,
     with_repositories cache (<[name settings := repository]> (repositories cache)),
     db').

(** Modelled from the spec: [ResponseCache.get_repository_from_url] and
    [get_repository_from_requests], defined in [base.py], which is not
    among the sources: "resolve the owning Repository via the Cache using
    the descriptor", through the [repository_getter] the cache was built
    with; no getter, no repository. *)
Definition get_repository_from_url (cache : SQLiteCache) (u : string) : option SQLiteTable :=
  match repository_getter cache with
  | None => None
  | Some getter => getter (repositories cache) u
  end.

(** Modelled from the spec: [ResponseCache.get_repository_from_requests]
    ([base.py], absent), the same resolution from the URL of the request. *)
Definition get_repository_from_requests (cache : SQLiteCache) (r : Request)
  : option SQLiteTable :=
  get_repository_from_url cache (url r).

End SQLite.

(* ===================================================================== *)
(** * [musify/api/cache/session.py] *)
(* ===================================================================== *)

Module Session.
Import SQLite.

(** The session hands the repository the request it built; the model has a
    single type of request descriptors (method and URL), whichever HTTP
    library made it. *)

(** What a call can touch: the database of the cache, the clock (which does
    not move while one call is handled), and the remote service, which
    answers the [n]-th request sent to it. *)
Record World : Type := {
  db : connection;
  clock : Z;
  server : nat -> Request -> result Response;
  sent : list Request
}.

Definition with_db (w : World) (d : connection) : World :=
  {| db := d; clock := clock w; server := server w; sent := sent w |}.

Record CachedSession : Type := {
  cache : SQLiteCache;
  (** [ClientSession._build_url]; [None] for [ValueError] *)
  _build_url : string -> option string
}.

(** What [request] yields: a [CachedResponse] or the [ClientResponse] of the
    network. *)
Inductive SessionResponse : Type :=
| CachedResponse (req : Request) (data : Py.value)
| ClientResponse (resp : Response).

Definition is_cached (r : SessionResponse) : bool :=
  match r with CachedResponse _ _ => true | ClientResponse _ => false end.

Section WithJson.

Context `{JsonLib}.

(** The response to [req] carries [req] as its request. *)
Definition answering (req : Request) (resp : Response) : Response :=
  {| request := req; status_code := status_code resp;
     headers := headers resp; text := text resp |}.

(** [super().request(...)]: the one place where the network is used. *)
Definition super_request (req : Request) (w : World) : result Response * World :=
  (resp ← server w (length (sent w)) req; Ok (answering req resp),
   {| db := db w; clock := clock w; server := server w; sent := sent w ++ [req] |}).

Definition _get_cached_response (sess : CachedSession) (req : Request)
    (repository : option SQLiteTable) (w : World) : result (option SessionResponse) :=
  match repository with
  | None => Ok None
  | Some repo =>
      data ← get_response repo (OfRequest req) (clock w) (db w);
      if is_none data then Ok None
      else if is_str data then Ok (Some (CachedResponse req data))
      else
        match get_repository_from_url (cache sess) (url req) with
        | None => Raise AttributeError
        | Some repo' =>
            Ok (Some (CachedResponse req (from_option PStr PNone (serialize data))))
        end
  end.

(** The result of [async with session.request(...) as response: body]:
    the response the body was given, if the call came that far, and how the
    whole statement ended. *)
Record Exchange : Type := {
  yielded : option SessionResponse;
  outcome : result unit
}.

(** [request] is a context manager: what follows its [yield] runs when the
    body of the [with] statement has ended, and only if it ended without
    raising. *)
Definition request (sess : CachedSession) (method_ url_ : string) (persist : bool)
    (body : SessionResponse -> result unit) (w : World) : Exchange * World :=
  match _build_url sess url_ with
  | None => ({| yielded := None; outcome := Raise InvalidURL |}, w)
  | Some u =>
      let req := {| method := method_; url := u |} in
      let repository := get_repository_from_requests (cache sess) req in
      match _get_cached_response sess req repository w with
      | Raise e => ({| yielded := None; outcome := Raise e |}, w)
      | Ok found =>
          let '(fetched, w1) :=
            match found with
            | Some response => (Ok response, w)
            | None =>
                let '(r, w') := super_request req w in
                (resp ← r; Ok (ClientResponse resp), w')
            end in
          match fetched with
          | Raise e => ({| yielded := None; outcome := Raise e |}, w1)
          | Ok response =>
              match body response with
              | Raise e => ({| yielded := Some response; outcome := Raise e |}, w1)
              | Ok _ =>
                  match response with
                  | ClientResponse resp =>
                      if persist then
                        match repository with
                        | None =>                       (* None.save_response *)
                            ({| yielded := Some response; outcome := Raise AttributeError |}, w1)
                        | Some repo =>
                            match save_response repo resp (clock w1) (clock w1) (db w1) with
                            | Ok db' =>
                                ({| yielded := Some response; outcome := Ok tt |}, with_db w1 db')
                            | Raise e =>
                                ({| yielded := Some response; outcome := Raise e |}, w1)
                            end
                        end
                      else ({| yielded := Some response; outcome := Ok tt |}, w1)
                  | CachedResponse _ _ =>
                      ({| yielded := Some response; outcome := Ok tt |}, w1)
                  end
              end
          end
      end
  end.

End WithJson.

End Session.

(* ===================================================================== *)
(** * [syncify/utils_new/api.py] *)
(* ===================================================================== *)

Module Authoriser.

(** ** The builtins the authoriser leans on *)

(** [bool(v)] *)
Definition truthy (v : Py.value) : bool :=
  match v with
  | PNone => false
  | PBool b => b
  | PInt z => negb (Z.eqb z 0)
  | PStr s => negb (String.eqb s "")
  | PList l => negb (Nat.eqb (length l) 0)
  | PDict d => negb (Nat.eqb (length d) 0)
  end.

Fixpoint is_substring (needle hay : string) : bool :=
  String.prefix needle hay
  || match hay with
     | EmptyString => false
     | String _ rest => is_substring needle rest
     end.

Definition ends_with (suffix s : string) : bool :=
  Nat.leb (String.length suffix) (String.length s)
  && String.eqb (String.substring (String.length s - String.length suffix)
                                  (String.length suffix) s) suffix.

(** [k in v] for a [str] [k] *)
Definition py_in (k : string) (v : Py.value) : result bool :=
  match v with
  | PDict d => Ok (dict_mem k d)
  | PList l => Ok (existsb (fun x => match x with PStr s => String.eqb s k | _ => false end) l)
  | PStr s => Ok (is_substring k s)
  | _ => Raise TypeError
  end.

(** [v[k]] for a [str] [k] *)
Definition subscript (v : Py.value) (k : string) : result Py.value :=
  match v with
  | PDict d => match dict_get k d with Some x => Ok x | None => Raise KeyError end
  | _ => Raise TypeError
  end.

(** [v.get(k, {})] *)
Definition get_or_empty (v : Py.value) (k : string) : result Py.value :=
  match v with
  | PDict d => Ok (default (PDict []) (dict_get k d))
  | _ => Raise AttributeError
  end.

(** A value used as a number in a comparison. *)
Definition as_number (v : Py.value) : result Z :=
  match v with
  | PInt z => Ok z
  | PBool b => Ok (if b then 1 else 0)
  | _ => Raise TypeError
  end.

(** [float(v)], on whole numbers. *)
Definition to_float (v : Py.value) : result Z :=
  match v with
  | PInt z => Ok z
  | PBool b => Ok (if b then 1 else 0)
  | PStr s =>
      match Json.read_int s with
      | Some (z, EmptyString) => Ok z
      | _ => Raise ValueError
      end
  | _ => Raise TypeError
  end.

(** The entries of [token_safe]: [f"{v[:5]}..."] slices what sits under a
    key that ends in [_token]. Only whether that raises is kept; the text
    goes to the log. *)
Fixpoint safe_items (d : Py.dict) : result unit :=
  match d with
  | [] => Ok tt
  | (k, v) :: rest =>
      if ends_with "_token" k then
        match v with
        | PStr _ | PList _ => safe_items rest
        | _ => Raise TypeError
        end
      else safe_items rest
  end.

(** ** The authoriser and its surroundings *)

(** The keyword arguments of a [requests] call. The sources index
    ["data"] (and ["params"] of [user_args]) without a test, so both are
    taken as given, empty if need be. *)
Record RequestArgs : Type := {
  args_url : string;
  args_params : Py.dict;
  args_data : Py.dict
}.

(** [request_token] is given [**self.auth_args] or [**self.refresh_args]:
    the [data] dictionary inside is the very object the authoriser holds,
    so what [_auth_user] writes into it stays. *)
Inductive args_ref : Type := AuthArgs | RefreshArgs.

Record APIAuthoriser : Type := {
  auth_args : RequestArgs;
  user_args : option RequestArgs;
  refresh_args : option RequestArgs;
  test_args : option RequestArgs;
  test_condition : option (Py.value -> bool);
  test_expiry : Z;
  token : option Py.value;
  token_file_path : option string;
  token_key_path : list string;
  header_key : string;
  header_prefix : string;
  header_extra : Py.dict
}.

Inductive event : Type :=
| EvRead (path : string)
| EvWrite (path : string)
| EvTest
| EvGet (u : string)
| EvPost (u : string)
| EvRequestToken (user : bool) (which : args_ref)
| EvUserAuthorisation.

(** The outside: the files, the clock with its successive readings, what
    the remote answers to the successive HTTP requests (the decoded body,
    or the failure of the request), the authorisation codes that reach the
    local listener, and the record of what was done. *)
Record World : Type := {
  files : gmap string string;
  clock : nat -> Z;
  ticks : nat;
  replies : list (result Py.value);
  redirects : list (result string);
  trace : list event
}.

Record state : Type := {
  self : APIAuthoriser;
  world : World
}.

Definition M (A : Type) : Type := state -> result A * state.

Definition ret {A} (a : A) : M A := fun s => (Ok a, s).

Definition raise {A} (e : exn) : M A := fun s => (Raise e, s).

Definition bind {A B} (m : M A) (f : A -> M B) : M B :=
  fun s => match m s with
           | (Ok a, s') => f a s'
           | (Raise e, s') => (Raise e, s')
           end.

Definition lift {A} (r : result A) : M A := fun s => (r, s).

#[export] Instance M_ret : MRet M := @ret.
#[export] Instance M_bind : MBind M := fun _ _ f m => bind m f.

Definition get_self : M APIAuthoriser := fun s => (Ok (self s), s).

Definition put_self (a : APIAuthoriser) : M unit :=
  fun s => (Ok tt, {| self := a; world := world s |}).

Definition log (ev : event) : M unit :=
  fun s =>
    let w := world s in
    (Ok tt, {| self := self s;
               world := {| files := files w; clock := clock w; ticks := ticks w;
                           replies := replies w; redirects := redirects w;
                           trace := trace w ++ [ev] |} |}).

(** [datetime.now().timestamp()] *)
Definition now : M Z :=
  fun s =>
    let w := world s in
    (Ok (clock w (ticks w)),
     {| self := self s;
        world := {| files := files w; clock := clock w; ticks := S (ticks w);
                    replies := replies w; redirects := redirects w;
                    trace := trace w |} |}).

(** One HTTP exchange: the next answer of the remote. *)
Definition exchange : M Py.value :=
  fun s =>
    let w := world s in
    match replies w with
    | [] => (Raise TransportError, s)
    | r :: rest =>
        (r, {| self := self s;
               world := {| files := files w; clock := clock w; ticks := ticks w;
                           replies := rest; redirects := redirects w;
                           trace := trace w |} |})
    end.

Definition post (args : RequestArgs) : M Py.value :=
  log (EvPost (args_url args)) ;; exchange.

Definition get (args : RequestArgs) : M Py.value :=
  log (EvGet (args_url args)) ;; exchange.

(** The listener accepts the redirect and the code is cut out of its
    request line. *)
Definition accept_code : M string :=
  fun s =>
    let w := world s in
    match redirects w with
    | [] => (Raise SocketTimeout, s)
    | r :: rest =>
        (r, {| self := self s;
               world := {| files := files w; clock := clock w; ticks := ticks w;
                           replies := replies w; redirects := rest;
                           trace := trace w |} |})
    end.

Definition write_file (path content : string) : M unit :=
  fun s =>
    let w := world s in
    (Ok tt, {| self := self s;
               world := {| files := <[path := content]> (files w); clock := clock w;
                           ticks := ticks w; replies := replies w;
                           redirects := redirects w; trace := trace w |} |}).

Definition set_token (a : APIAuthoriser) (t : option Py.value) : APIAuthoriser :=
  {| auth_args := auth_args a; user_args := user_args a; refresh_args := refresh_args a;
     test_args := test_args a; test_condition := test_condition a;
     test_expiry := test_expiry a; token := t; token_file_path := token_file_path a;
     token_key_path := token_key_path a; header_key := header_key a;
     header_prefix := header_prefix a; header_extra := header_extra a |}.

Definition set_user_args (a : APIAuthoriser) (u : option RequestArgs) : APIAuthoriser :=
  {| auth_args := auth_args a; user_args := u; refresh_args := refresh_args a;
     test_args := test_args a; test_condition := test_condition a;
     test_expiry := test_expiry a; token := token a; token_file_path := token_file_path a;
     token_key_path := token_key_path a; header_key := header_key a;
     header_prefix := header_prefix a; header_extra := header_extra a |}.

Definition set_auth_args (a : APIAuthoriser) (r : RequestArgs) : APIAuthoriser :=
  {| auth_args := r; user_args := user_args a; refresh_args := refresh_args a;
     test_args := test_args a; test_condition := test_condition a;
     test_expiry := test_expiry a; token := token a; token_file_path := token_file_path a;
     token_key_path := token_key_path a; header_key := header_key a;
     header_prefix := header_prefix a; header_extra := header_extra a |}.

Definition set_refresh_args (a : APIAuthoriser) (r : option RequestArgs) : APIAuthoriser :=
  {| auth_args := auth_args a; user_args := user_args a; refresh_args := r;
     test_args := test_args a; test_condition := test_condition a;
     test_expiry := test_expiry a; token := token a; token_file_path := token_file_path a;
     token_key_path := token_key_path a; header_key := header_key a;
     header_prefix := header_prefix a; header_extra := header_extra a |}.

Definition set_data (args : RequestArgs) (k : string) (v : Py.value) : RequestArgs :=
  {| args_url := args_url args; args_params := args_params args;
     args_data := dict_set k v (args_data args) |}.

Definition set_param (args : RequestArgs) (k : string) (v : Py.value) : RequestArgs :=
  {| args_url := args_url args; args_params := dict_set k v (args_params args);
     args_data := args_data args |}.

(** The arguments behind a reference, as the authoriser holds them now. *)
Definition deref (which : args_ref) : M RequestArgs :=
  a ← get_self;
  match which with
  | AuthArgs => ret (auth_args a)
  | RefreshArgs =>
      match refresh_args a with
      | Some r => ret r
      | None => raise TypeError
      end
  end.

(** [requests_args["data"][k] = v], seen through the reference. *)
Definition assign_data (which : args_ref) (k : string) (v : Py.value) : M unit :=
  a ← get_self;
  match which with
  | AuthArgs => put_self (set_auth_args a (set_data (auth_args a) k v))
  | RefreshArgs =>
      match refresh_args a with
      | Some r => put_self (set_refresh_args a (Some (set_data r k v)))
      | None => raise TypeError
      end
  end.

Section WithJson.

Context `{JsonLib}.

Definition token_safe : M unit :=
  a ← get_self;
  match token a with
  | Some (PDict d) => lift (safe_items d)
  | _ => raise AttributeError                                 (* no .items() *)
  end.

Definition headers : M Py.dict :=
  a ← get_self;
  match token a with
  | None => raise TypeError                                   (* Token not loaded. *)
  | Some tok =>
      token_value ← lift (fold_left (fun acc k => v ← acc; get_or_empty v k)
                                     (token_key_path a) (Ok tok));
      match token_value with
      | PStr s =>
          ret (fold_left (fun d kv => dict_set (fst kv) (snd kv) d) (header_extra a)
                         [(header_key a, PStr (header_prefix a ++ s))])
      | _ => raise TypeError
      end
  end.

Definition _auth_user (which : args_ref) : M unit :=
  a ← get_self;
  match user_args a with
  | None => ret tt
  | Some ua =>
      log EvUserAuthorisation ;;
      let ua' := set_param ua "redirect_uri" (PStr "http://localhost/") in
      put_self (set_user_args a (Some ua')) ;;
      post ua' ;;
      code ← accept_code;
      assign_data which "code" (PStr code)
  end.

(** [request_token], past the note of its call in the record. *)
Definition request_token_body (user : bool) (which : args_ref) : M unit :=
  a ← get_self;
  requests_args ← deref which;
  (if user && bool_decide (is_Some (user_args a))
      && negb (truthy (default PNone (dict_get "code" (args_data requests_args))))
   then _auth_user which else ret tt) ;;
  requests_args ← deref which;
  auth_response ← post requests_args;
  granted_at ← now;
  match auth_response with
  | PDict d =>
      let d := dict_set "granted_at" (PInt granted_at) d in
      d ← (if dict_mem "expires_in" d
            then expires_in ← lift (to_float (default PNone (dict_get "expires_in" d)));
                 ret (dict_set "expires_at" (PInt (granted_at + expires_in)) d)
            else ret d : M Py.dict);
      a ← get_self;
      d ← (if dict_mem "refresh_token" d then ret d
            else match token a with
                 | None => ret d
                 | Some tok =>
                     held ← lift (py_in "refresh_token" tok);
                     if (held : bool)
                     then v ← lift (subscript tok "refresh_token");
                          ret (dict_set "refresh_token" v d)
                     else ret d
                 end : M Py.dict);
      a ← get_self;
      put_self (set_token a (Some (PDict d)))
  | _ => raise TypeError                                      (* no item assignment *)
  end.

Definition request_token (user : bool) (which : args_ref) : M unit :=
  log (EvRequestToken user which) ;; request_token_body user which.

Definition test : M bool :=
  log EvTest ;;
  a ← get_self;
  match token a with
  | None => raise TypeError                                   (* "error" in None *)
  | Some tok =>
      has_error ← lift (py_in "error" tok);
      if (has_error : bool) then ret false
      else (
        valid_response ←
          match test_args a, test_condition a with
          | Some ta, Some cond =>
              headers ;;
              response ← get ta;
              ret (cond response)
          | _, _ => (ret true : M bool)
          end;
        has_expiry ← lift (py_in "expires_at" tok);
        not_expired ←
          (if (has_expiry : bool) && (0 <? test_expiry a)
           then t ← now;
                e ← lift (v ← subscript tok "expires_at"; as_number v);
                ret (t + test_expiry a <? e)
           else ret true : M bool);
        ret (valid_response && not_expired))
  end.

Definition load_token : M (option Py.value) :=
  a ← get_self;
  (match token_file_path a with
   | Some path =>
       fun s =>
         match files (world s) !! path with
         | Some content =>
             if String.eqb path "" then (Ok tt, s)
             else
               (log (EvRead path) ;;
                match json_loads content with
                | Some v => put_self (set_token a (Some v))
                | None => raise JSONDecodeError
                end) s
         | None => (Ok tt, s)
         end
   | None => ret tt
   end) ;;
  a ← get_self;
  ret (token a).

Definition save_token : M unit :=
  token_safe ;;
  a ← get_self;
  match token_file_path a with
  | None => raise TypeError                                   (* open(None, "w") *)
  | Some path =>
      if String.eqb path "" then raise FileNotFoundError
      else
        log (EvWrite path) ;;
        write_file path (json_dumps (default PNone (token a)))
  end.

Definition auth (force_load force_new : bool) : M Py.dict :=
  a ← get_self;
  (if (negb (bool_decide (is_Some (token a))) || force_load) && negb force_new
   then load_token ;; ret tt else ret tt) ;;
  a ← get_self;
  (match token a with
   | None => request_token true AuthArgs
   | Some _ => if force_new then request_token true AuthArgs else ret tt
   end) ;;
  valid ← test;
  a ← get_self;
  held ← (if (valid : bool) then ret false
           else match token a with
                | Some tok => lift (py_in "refresh_token" tok)
                | None => raise TypeError
                end);
  valid ←
    (if negb valid && held && bool_decide (is_Some (refresh_args a))
     then
       v ← lift (subscript (default PNone (token a)) "refresh_token");
       assign_data RefreshArgs "refresh_token" v ;;
       request_token false RefreshArgs ;;
       test
     else ret valid : M bool);
  (if (valid : bool) then ret tt
   else
     request_token true AuthArgs ;;
     valid ← test;
     if (valid : bool) then ret tt
     else token_safe ;; raise ConnectionError) ;;
  save_token ;;
  headers.

End WithJson.

(** ** Reading the record of a run *)

(** What [auth] still has to do once the refreshed token was requested. *)
Definition after_refresh `{JsonLib} : M Py.dict :=
  bind test (fun valid : bool =>
  bind (if valid then ret tt
        else bind (request_token true AuthArgs) (fun _ =>
             bind test (fun valid' : bool =>
             if valid' then ret tt
             else bind token_safe (fun _ => raise ConnectionError))))
       (fun _ => bind save_token (fun _ => headers))).


(** The full authorisation flow: [request_token(user=True, ...)] and the
    browser round trip inside it. *)
Definition interactive (ev : event) : bool :=
  match ev with
  | EvRequestToken true _ | EvUserAuthorisation => true
  | _ => false
  end.

Definition quiet (ev : event) : bool := negb (interactive ev).

Definition any_event (ev : event) : bool := true.

(** [m] only adds to the record, and only events that satisfy [P]. *)
Definition emits {A} (P : event -> bool) (m : M A) : Prop :=
  forall s, exists evs,
    trace (world (snd (m s))) = (trace (world s) ++ evs)%list /\ forallb P evs = true.

(** [m] leaves the authoriser as it is. *)
Definition keeps_self {A} (m : M A) : Prop :=
  forall s, self (snd (m s)) = self s.

(** [m] leaves what [f] reads of the state as it is. *)
Definition preserves {A B} (f : state -> B) (m : M A) : Prop :=
  forall s, f (snd (m s)) = f s.


(** Anything but a read of the token file. *)
Definition not_read (ev : event) : bool :=
  match ev with
  | EvRead _ => false
  | _ => true
  end.

(** Testing the token and writing it out: no token request, no
    authorisation by the user, no read of the token file. *)
Definition settled (ev : event) : bool :=
  match ev with
  | EvTest | EvGet _ | EvWrite _ => true
  | _ => false
  end.

(** Anything but the round trip through the browser. *)
Definition unattended (ev : event) : bool :=
  match ev with
  | EvUserAuthorisation => false
  | _ => true
  end.

End Authoriser.

(* ===================================================================== *)
(** * The request handler *)
(* ===================================================================== *)

Module Handler.

(** Modelled from the spec: the configuration of the Request Handler
    ([syncify.api.RequestHandler], which is not among the sources;
    [tests/api/test_request.py] exercises it): "cache TTL, backoff
    parameters, rate-limit ceiling", that is [backoff_start],
    [backoff_factor], [backoff_count] and [timeout] as the tests name them,
    and the transient status class. *)
Record RequestHandler : Type := {
  (** the first backoff interval, in milliseconds *)
  backoff_start : Z;
  backoff_factor : Z;
  (** the maximum number of attempts under backoff *)
  backoff_count : nat;
  (** the ceiling on a rate-limit wait, in seconds *)
  timeout : Z;
  (** the statuses that are retried under backoff *)
  transient : Z -> bool
}.

Inductive pause : Type :=
| RateLimitWait (seconds : Z)
| BackoffWait (milliseconds : Z).

(** The remote answers the [n]-th request sent to it (as the callback of
    [test_backoff] does from [call_count]); the handler's sends and sleeps
    are counted. *)
Record World : Type := {
  endpoint : nat -> Response;
  calls : nat;
  slept : list pause
}.

Definition sleep (p : pause) (w : World) : World :=
  {| endpoint := endpoint w; calls := calls w; slept := slept w ++ [p] |}.

Definition send (w : World) : Response * World :=
  (endpoint w (calls w),
   {| endpoint := endpoint w; calls := S (calls w); slept := slept w |}).

Fixpoint header (k : string) (hs : list (string * string)) : option string :=
  match hs with
  | [] => None
  | (k', v) :: rest => if String.eqb k k' then Some v else header k rest
  end.

(** Modelled from the spec: the success of a response, "a 2xx status". *)
Definition is_success (resp : Response) : bool :=
  (200 <=? status_code resp) && (status_code resp <? 300).


Section WithJson.

Context `{JsonLib}.

(** Modelled from the spec: [handle_wait_time], of the absent request
    handler: "if the response carries a rate-limit hint header, parse it as
    seconds to wait. If the parsed wait exceeds a configured ceiling, treat
    as fatal (the caller should not block indefinitely) and raise;
    otherwise sleep for the hint and signal 'retry now.'" A hint that is no
    number is an error of its own. *)
Definition handle_wait_time (h : RequestHandler) (resp : Response) (w : World)
  : result bool * World :=
  match header "retry-after" (headers resp) with
  | None => (Ok false, w)
  | Some hint =>
      match Json.read_int hint with
      | Some (wait, EmptyString) =>
          if timeout h <? wait
          then (Raise (APIError "Rate limit exceeded and wait time is greater than timeout"), w)
          else (Ok true, sleep (RateLimitWait wait) w)
      | _ => (Raise ValueError, w)
      end
  end.

(** Modelled from the spec: [_response_as_json] of the absent handler, the
    "parsed_body" of a response; [test_response_as_json] has it be [{}] for
    a body that is no JSON. *)
Definition _response_as_json (resp : Response) : Py.value :=
  default (PDict []) (json_loads (text resp)).

(** Modelled from the spec: the state machine of one logical call of the
    absent request handler: "PENDING -> (SEND) -> RESPONSE_RECEIVED ->
    {SUCCESS | RETRYABLE -> SEND (loop) | FATAL}". A 2xx response is the
    result. A response with a rate-limit hint goes through
    [handle_wait_time]. Otherwise, "on a transient status class ... wait an
    exponentially increasing interval starting at a configured base,
    doubling (or configured factor) each attempt, up to a configured maximum
    attempt count; exceeding the attempt count raises a fatal error"; any
    other status "raises a typed API error". [failed] counts the attempts
    that failed on a transient status, [delay] is the next interval. [fuel]
    bounds the number of sends; [None] when it runs out. *)
Fixpoint request_loop (fuel : nat) (h : RequestHandler) (failed : nat) (delay : Z)
    (w : World) : option (result Py.value) * World :=
  match fuel with
  | O => (None, w)
  | S fuel' =>
      let '(resp, w1) := send w in
      if is_success resp then (Some (Ok (_response_as_json resp)), w1)
      else
        match handle_wait_time h resp w1 with
        | (Raise e, w2) => (Some (Raise e), w2)
        | (Ok true, w2) => request_loop fuel' h failed delay w2
        | (Ok false, w2) =>
            if transient h (status_code resp) then
              if Nat.ltb (S failed) (backoff_count h)
              then request_loop fuel' h (S failed) (delay * backoff_factor h)
                                (sleep (BackoffWait delay) w2)
              else (Some (Raise (APIError "Max retries exceeded")), w2)
            else (Some (Raise (APIError "Unexpected response")), w2)
        end
  end.

(** Modelled from the spec: [request] of the absent handler, one logical
    call: the loop from no failure yet and the configured first interval. *)
Definition request (fuel : nat) (h : RequestHandler) (w : World)
  : option (result Py.value) * World :=
  request_loop fuel h 0 (backoff_start h) w.

End WithJson.

End Handler.

(* ===================================================================== *)
(** * Concrete families, repositories and worlds *)
(* ===================================================================== *)

Module Samples.
Import SQLite.

(** A family of simple endpoints: the id is what follows the last [/] of
    the path, before any query; no id on a URL that ends in [/]. *)
Fixpoint last_segment (acc : string) (s : string) : string :=
  match s with
  | EmptyString => acc
  | String c rest =>
      if Ascii.eqb c "/" then last_segment EmptyString rest
      else if Ascii.eqb c "?" then acc
      else last_segment (acc ++ String c EmptyString) rest
  end.

Definition id_of_url (u : string) : option string :=
  match last_segment EmptyString u with
  | EmptyString => None
  | s => Some s
  end.

Definition tracks : RequestSettings :=
  {| name := "tracks";
     get_id := id_of_url;
     get_name := fun _ => None;
     pagination := None |}.

(** A paginated family whose page window is carried by the length of the
    URL (a stand-in for the query parameters [offset] and [limit]). *)
Definition playlist_tracks : RequestSettings :=
  {| name := "playlist_tracks";
     get_id := id_of_url;
     get_name := fun _ => None;
     pagination := Some {| get_offset := fun u => Z.of_nat (String.length u);
                           get_limit := fun _ => 50 |} |}.

(** A repository whose entries live for one second. *)
Definition tracks_table : SQLiteTable := {| settings := tracks; ttl := 1000000 |}.

Definition playlist_table : SQLiteTable := {| settings := playlist_tracks; ttl := 1000000 |}.

Definition fresh_db : connection := create_table tracks_table ∅.

Definition abc_key : key := [SqlText "GET"; SqlText "abc"].

Definition get_abc : Request := {| method := "GET"; url := "http://localhost/abc" |}.

(** A URL from which the family extracts no id. *)
Definition get_root : Request := {| method := "GET"; url := "http://localhost/" |}.

Definition x1 : Py.value := PDict [("x", PInt 1)].

Definition empty_cache : SQLiteCache :=
  {| cache_name := "__IN_MEMORY__";
     repositories := ∅;
     cache_expire := 1000000;
     repository_getter := Some (fun repos _ => repos !! "tracks") |}.

(** The cache once the [tracks] family has its repository. *)
Definition tracks_cache : SQLiteCache :=
  with_repositories empty_cache {[ "tracks" := tracks_table ]}.

(** ** A session over that cache *)




Definition found : Response :=
  {| request := get_abc; status_code := 200; headers := []; text := json_dumps x1 |}.


Definition db_with_x1 : connection :=
  match _set_item_from_key_value_pair tracks_table abc_key x1 0 0 fresh_db with
  | Ok d => d
  | Raise _ => fresh_db
  end.

Definition xyz_key : key := [SqlText "GET"; SqlText "xyz"].

(** [db_with_x1] after a later write under another key. *)
Definition db_with_xyz : connection :=
  match _set_item_from_key_value_pair tracks_table xyz_key (PStr "[]") 5 5 db_with_x1 with
  | Ok d => d
  | Raise _ => db_with_x1
  end.

Definition world_of (d : connection) (resp : Response) : Session.World :=
  {| Session.db := d; Session.clock := 10;
     Session.server := fun _ _ => Ok resp; Session.sent := [] |}.

Definition body_ok : Session.SessionResponse -> result unit := fun _ => Ok tt.


(** ** An authoriser with a token that is about to expire *)

Definition token_url : string := "https://accounts.spotify.com/api/token".

Definition stale_token : Py.dict :=
  [("access_token", PStr "old"); ("refresh_token", PStr "again"); ("expires_at", PInt 100)].

Definition authoriser (path : option string) : Authoriser.APIAuthoriser :=
  {| Authoriser.auth_args :=
       {| Authoriser.args_url := token_url; Authoriser.args_params := [];
          Authoriser.args_data := [("grant_type", PStr "authorization_code")] |};
     Authoriser.user_args :=
       Some {| Authoriser.args_url := "https://accounts.spotify.com/authorize";
               Authoriser.args_params := [("response_type", PStr "code")];
               Authoriser.args_data := [] |};
     Authoriser.refresh_args :=
       Some {| Authoriser.args_url := token_url; Authoriser.args_params := [];
               Authoriser.args_data := [("grant_type", PStr "refresh_token")] |};
     Authoriser.test_args := None;
     Authoriser.test_condition := None;
     Authoriser.test_expiry := 600;
     Authoriser.token := Some (PDict stale_token);
     Authoriser.token_file_path := path;
     Authoriser.token_key_path := ["access_token"];
     Authoriser.header_key := "Authorization";
     Authoriser.header_prefix := "Bearer ";
     Authoriser.header_extra := [] |}.

(** The remote grants a token that lives for an hour. *)
Definition granted : Py.value :=
  PDict [("access_token", PStr "new"); ("expires_in", PInt 3600)].

(** The remote keeps granting tokens that are already too old. *)
Definition short_lived : Py.value :=
  PDict [("access_token", PStr "new"); ("expires_in", PInt 60)].

Definition outside (answers : list (result Py.value)) : Authoriser.World :=
  {| Authoriser.files := ∅;
     Authoriser.clock := fun n => 1000 + Z.of_nat n;
     Authoriser.ticks := 0;
     Authoriser.replies := answers;
     Authoriser.redirects := [Ok "code-from-the-browser"];
     Authoriser.trace := [] |}.

Definition auth_state (path : option string) (answers : list (result Py.value))
  : Authoriser.state :=
  {| Authoriser.self := authoriser path; Authoriser.world := outside answers |}.

Definition refresh_args_sent : Authoriser.RequestArgs :=
  {| Authoriser.args_url := token_url; Authoriser.args_params := [];
     Authoriser.args_data := [("grant_type", PStr "refresh_token")] |}.

(** The state in which the refreshed token is requested, for a start from
    [start]. *)
Definition at_refresh (start : Authoriser.state) : Authoriser.state :=
  {| Authoriser.self :=
       Authoriser.set_refresh_args (Authoriser.self start)
         (Some (Authoriser.set_data refresh_args_sent "refresh_token" (PStr "again")));
     Authoriser.world := Authoriser.world (snd (Authoriser.test start)) |}.

(** The refresh will do. *)
Definition refreshing : Authoriser.state := auth_state (Some "token.json") [Ok granted].

(** Neither the refresh nor the full authorisation yields a token that
    lives long enough. *)
Definition hopeless : Authoriser.state :=
  auth_state (Some "token.json") [Ok short_lived; Ok (PStr "page"); Ok short_lived].

(** ** A handler as [test_backoff] and [test_check_for_wait_time] set it up *)

Definition handler : Handler.RequestHandler :=
  {| Handler.backoff_start := 100;
     Handler.backoff_factor := 2;
     Handler.backoff_count := 3;
     Handler.timeout := 300;
     Handler.transient := fun st => Z.eqb st 408 |}.

Definition timed_out : Response :=
  {| request := get_abc; status_code := 408; headers := [];
     text := json_dumps (PDict [("error", PDict [("message", PStr "fail")])]) |}.

Definition rate_limited (hint : string) : Response :=
  {| request := get_abc; status_code := 429; headers := [("retry-after", hint)];
     text := "" |}.

(** The remote answers [first] to the first [n] requests and [next] from
    then on. *)
Definition remote (n : nat) (first next : Response) : Handler.World :=
  {| Handler.endpoint := fun i => if Nat.ltb i n then first else next;
     Handler.calls := 0;
     Handler.slept := [] |}.

End Samples.

(* ===================================================================== *)
(** * Facts about the SQLite backend *)
(* ===================================================================== *)

Module SQLiteFacts.
Import SQLite.

Lemma sql_eqb_refl (v : sql_value) : is_null v = false -> sql_eqb v v = true.
Proof.
  destruct v as [|z|s]; simpl; intros Hn; try discriminate.
  - apply Z.eqb_refl.
  - apply String.eqb_refl.
Qed.

Lemma key_eqb_refl (k : key) : existsb is_null k = false -> key_eqb k k = true.
Proof.
  induction k as [|v k IH]; simpl; [reflexivity|].
  intros Hn. apply orb_false_iff in Hn as [Hv Hk].
  rewrite sql_eqb_refl, IH; auto.
Qed.

Section Derived.

Context `{JsonLib}.
Variable repo : SQLiteTable.


Lemma execute_ok (db : connection) (t : table) (n m : nat) :
  db !! name (settings repo) = Some t -> n = m ->
  execute db (name (settings repo)) n m = Ok t.
Proof.
  intros Ht ->. unfold execute. rewrite Ht, Nat.eqb_refl. reflexivity.
Qed.




End Derived.




(** The scenario of the specification: once the second has passed, the
    entry counts among all entries and no longer among the live ones. *)
Example count_scenario :
  (db' ← _set_item_from_key_value_pair Samples.tracks_table Samples.abc_key Samples.x1
            0 0 Samples.fresh_db;
   n_all ← count Samples.tracks_table true 1100000 db';
   n_live ← count Samples.tracks_table false 1100000 db';
   Ok (n_all, n_live)) = Ok (1%nat, 0%nat).
Proof. vm_compute. reflexivity. Qed.


(** C4. The key derived from a request is [(method, id)] for a simple
    family and [(method, id, offset, size)] for a paginated one, and is
    absent when the family extracts no id from the URL. Two requests to a
    simple family with the same method and the same extracted id derive the
    same key; two requests to a paginated family that derive keys and
    differ in offset or in page size derive different keys. *)
Theorem key_derivation (repo : SQLiteTable) (r1 r2 : Request) :
  (forall id_, get_id (settings repo) (url r1) = Some id_ -> id_ <> "" ->
     get_key_from_request repo (OfRequest r1) =
       Some match pagination (settings repo) with
            | None => [SqlText (method r1); SqlText id_]
            | Some p => [SqlText (method r1); SqlText id_;
                         SqlInt (get_offset p (url r1)); SqlInt (get_limit p (url r1))]
            end)
  /\ (get_id (settings repo) (url r1) = None \/ get_id (settings repo) (url r1) = Some "" ->
      get_key_from_request repo (OfRequest r1) = None)
  /\ (pagination (settings repo) = None ->
      method r1 = method r2 ->
      get_id (settings repo) (url r1) = get_id (settings repo) (url r2) ->
      get_key_from_request repo (OfRequest r1) = get_key_from_request repo (OfRequest r2))
  /\ (forall p, pagination (settings repo) = Some p ->
      is_Some (get_key_from_request repo (OfRequest r1)) ->
      is_Some (get_key_from_request repo (OfRequest r2)) ->
      get_offset p (url r1) <> get_offset p (url r2)
      \/ get_limit p (url r1) <> get_limit p (url r2) ->
      get_key_from_request repo (OfRequest r1) <> get_key_from_request repo (OfRequest r2)).
Proof.
  simpl. unfold key_of_request. repeat split.
  - intros id_ -> Hne. destruct id_ as [|c s]; [congruence|].
    destruct (pagination (settings repo)); reflexivity.
  - intros [-> | ->]; reflexivity.
  - intros -> -> ->. reflexivity.
  - intros p -> H1 H2 Hdiff.
    destruct (get_id (settings repo) (url r1)) as [[|c1 s1]|];
      try (destruct H1 as [? H1]; discriminate).
    destruct (get_id (settings repo) (url r2)) as [[|c2 s2]|];
      try (destruct H2 as [? H2]; discriminate).
    simpl. intros [= _ _ Ho Hl]. destruct Hdiff as [Hd | Hd]; apply Hd; assumption.
Qed.

Lemma key_derivation_witness :
  get_key_from_request Samples.tracks_table (OfRequest Samples.get_abc)
  = get_key_from_request Samples.tracks_table
      (OfRequest {| method := "GET"; url := "http://localhost/abc?market=GB" |})
  /\ get_key_from_request Samples.playlist_table
       (OfRequest {| method := "GET"; url := "http://localhost/abc?offset=0" |})
     <> get_key_from_request Samples.playlist_table
          (OfRequest {| method := "GET"; url := "http://localhost/abc?offset=50" |})
  /\ get_key_from_request Samples.tracks_table (OfRequest Samples.get_root) = None.
Proof.
  split; [|split].
  - destruct (key_derivation Samples.tracks_table Samples.get_abc
                {| method := "GET"; url := "http://localhost/abc?market=GB" |})
      as (_ & _ & Hsame & _).
    apply Hsame; reflexivity.
  - destruct (key_derivation Samples.playlist_table
                {| method := "GET"; url := "http://localhost/abc?offset=0" |}
                {| method := "GET"; url := "http://localhost/abc?offset=50" |})
      as (_ & _ & _ & Hdiff).
    eapply Hdiff.
    + reflexivity.
    + eexists. reflexivity.
    + eexists. reflexivity.
    + left. vm_compute. discriminate.
  - destruct (key_derivation Samples.tracks_table Samples.get_root Samples.get_root)
      as (_ & Habsent & _).
    apply Habsent. left. reflexivity.
Defined.

(** C6. In a cache that holds a repository under the name of the given
    settings, [create_repository] raises [CacheError] and changes neither
    the registrations of the cache nor the database. *)
Theorem create_repository_duplicate (cache : SQLiteCache) (settings_ : RequestSettings)
    (db : connection) (existing : SQLiteTable) :
  repositories cache !! name settings_ = Some existing ->
  exists msg,
    create_repository cache settings_ db = (Raise (CacheError msg), cache, db)
    /\ repositories (snd (fst (create_repository cache settings_ db))) !! name settings_
       = Some existing.
Proof.
  intros Hin. exists ("Repository already exists: " ++ name settings_).
  unfold create_repository, cache_contains.
  rewrite bool_decide_eq_true_2 by (rewrite Hin; eauto).
  split; [reflexivity | exact Hin].
Qed.

(** The sample cache with its repository is what [create_repository] makes
    of the empty one. *)
Example create_tracks_repository :
  create_repository Samples.empty_cache Samples.tracks ∅
  = (Ok Samples.tracks_table, Samples.tracks_cache, Samples.fresh_db).
Proof. vm_compute. reflexivity. Qed.

Lemma create_repository_duplicate_witness :
  exists msg,
    create_repository Samples.tracks_cache Samples.tracks Samples.fresh_db
    = (Raise (CacheError msg), Samples.tracks_cache, Samples.fresh_db)
    /\ repositories
         (snd (fst (create_repository Samples.tracks_cache Samples.tracks Samples.fresh_db)))
       !! name Samples.tracks = Some Samples.tracks_table.
Proof.
  apply (create_repository_duplicate Samples.tracks_cache Samples.tracks Samples.fresh_db
           Samples.tracks_table).
  vm_compute. reflexivity.
Defined.

(** C10, on the code. For a request from which no key derives,
    [get_response] returns absent, but [contains] raises [TypeError]
    (it unpacks the absent key) and [delete_response] raises as well (the
    statement is given no parameter for its placeholders). *)
Theorem absent_key_reads `{JsonLib} (repo : SQLiteTable) (req : RepositoryRequest)
    (now : Z) (db : connection) :
  get_key_from_request repo req = None ->
  get_response repo req now db = Ok PNone
  /\ contains repo req now db = Raise TypeError
  /\ (delete_response repo req db = Raise ProgrammingError
      \/ delete_response repo req db = Raise OperationalError).
Proof.
  intros Hk. unfold get_response, contains, delete_response. rewrite Hk. simpl.
  split; [reflexivity|]. split; [reflexivity|].
  unfold execute. destruct (db !! name (settings repo)); [left | right]; [|reflexivity].
  unfold _primary_key_columns. simpl. reflexivity.
Qed.

Lemma absent_key_reads_witness :
  get_response Samples.tracks_table (OfRequest Samples.get_root) 0 Samples.fresh_db = Ok PNone
  /\ contains Samples.tracks_table (OfRequest Samples.get_root) 0 Samples.fresh_db
     = Raise TypeError
  /\ delete_response Samples.tracks_table (OfRequest Samples.get_root) Samples.fresh_db
     = Raise ProgrammingError.
Proof.
  destruct (absent_key_reads Samples.tracks_table (OfRequest Samples.get_root) 0
              Samples.fresh_db) as (Hget & Hcontains & Hdelete).
  - reflexivity.
  - split; [exact Hget|]. split; [exact Hcontains|].
    destruct Hdelete as [Hd | Hd]; [exact Hd|].
    vm_compute in Hd. discriminate Hd.
Defined.

End SQLiteFacts.

(* ===================================================================== *)
(** * Facts about the cached session *)
(* ===================================================================== *)

Module SessionFacts.
Import SQLite Session.











End SessionFacts.

(* ===================================================================== *)
(** * Facts about the authoriser *)
(* ===================================================================== *)

Module AuthoriserFacts.
Import Authoriser.

Lemma bind_ok {A B} (m : M A) (f : A -> M B) (s s' : state) (a : A) :
  m s = (Ok a, s') -> bind m f s = f a s'.
Proof. intros E. unfold bind. rewrite E. reflexivity. Qed.

Lemma bind_assoc {A B C} (m : M A) (f : A -> M B) (g : B -> M C) (s : state) :
  bind (bind m f) g s = bind m (fun a => bind (f a) g) s.
Proof. unfold bind. destruct (m s) as [[a|e] s']; reflexivity. Qed.

(** ** What a computation adds to the record *)

Section Emits.

Variable P : event -> bool.

Lemma emits_same {A} (m : M A) :
  (forall s, world (snd (m s)) = world s) -> emits P m.
Proof.
  intros Hw s. exists []. rewrite Hw, app_nil_r. split; reflexivity.
Qed.

Lemma emits_ret {A} (a : A) : emits P (ret a).
Proof. apply emits_same. reflexivity. Qed.

Lemma emits_raise {A} (e : exn) : emits P (@raise A e).
Proof. apply emits_same. reflexivity. Qed.

Lemma emits_lift {A} (r : result A) : emits P (lift r).
Proof. apply emits_same. reflexivity. Qed.

Lemma emits_get_self : emits P get_self.
Proof. apply emits_same. reflexivity. Qed.

Lemma emits_put_self (a : APIAuthoriser) : emits P (put_self a).
Proof. apply emits_same. reflexivity. Qed.

Lemma emits_now : emits P now.
Proof. intros s. exists []. simpl. rewrite app_nil_r. split; reflexivity. Qed.

Lemma emits_exchange : emits P exchange.
Proof.
  intros s. exists []. unfold exchange. rewrite app_nil_r.
  destruct (replies (world s)); split; reflexivity.
Qed.

Lemma emits_accept_code : emits P accept_code.
Proof.
  intros s. exists []. unfold accept_code. rewrite app_nil_r.
  destruct (redirects (world s)); split; reflexivity.
Qed.

Lemma emits_write_file (path content : string) : emits P (write_file path content).
Proof. intros s. exists []. simpl. rewrite app_nil_r. split; reflexivity. Qed.

Lemma emits_log (ev : event) : P ev = true -> emits P (log ev).
Proof. intros Hev s. exists [ev]. simpl. rewrite Hev. split; reflexivity. Qed.

Lemma emits_bind {A B} (m : M A) (f : A -> M B) :
  emits P m -> (forall a, emits P (f a)) -> emits P (bind m f).
Proof.
  intros Hm Hf s. unfold bind.
  destruct (Hm s) as (evs1 & H1 & HP1).
  destruct (m s) as [[a|e] s'] eqn:E; simpl in H1.
  - destruct (Hf a s') as (evs2 & H2 & HP2).
    exists (evs1 ++ evs2)%list. rewrite H2, H1, app_assoc, forallb_app, HP1, HP2.
    split; reflexivity.
  - exists evs1. split; assumption.
Qed.

End Emits.

Ltac emits_tac :=
  repeat first
    [ apply emits_ret | apply emits_raise | apply emits_lift | apply emits_get_self
    | apply emits_put_self | apply emits_now | apply emits_exchange
    | apply emits_accept_code | apply emits_write_file
    | apply emits_log; reflexivity
    | apply emits_bind; [| intro]
    | assumption
    | match goal with
      | |- emits _ (if ?b then _ else _) => destruct b
      | |- emits _ (match ?x with _ => _ end) => destruct x
      end ].

Section Emitters.

Context `{JsonLib}.
Variable P : event -> bool.

Lemma emits_post (args : RequestArgs) :
  P (EvPost (args_url args)) = true -> emits P (post args).
Proof.
  intros HP. unfold post, mbind, M_bind.
  apply emits_bind; [apply emits_log; exact HP|]. intros ?. apply emits_exchange.
Qed.

Lemma emits_get (args : RequestArgs) :
  P (EvGet (args_url args)) = true -> emits P (get args).
Proof.
  intros HP. unfold get, mbind, M_bind.
  apply emits_bind; [apply emits_log; exact HP|]. intros ?. apply emits_exchange.
Qed.

Lemma emits_deref (which : args_ref) : emits P (deref which).
Proof. unfold deref, mbind, M_bind. emits_tac. Qed.

Lemma emits_assign_data (which : args_ref) (k : string) (v : Py.value) :
  emits P (assign_data which k v).
Proof. unfold assign_data, mbind, M_bind. emits_tac. Qed.

Lemma emits_token_safe : emits P token_safe.
Proof. unfold token_safe, mbind, M_bind. emits_tac. Qed.

Lemma emits_headers : emits P headers.
Proof. unfold headers, mbind, M_bind. emits_tac. Qed.

Hypothesis P_get : forall u, P (EvGet u) = true.
Hypothesis P_post : forall u, P (EvPost u) = true.
Hypothesis P_test : P EvTest = true.
Hypothesis P_read : forall path, P (EvRead path) = true.
Hypothesis P_write : forall path, P (EvWrite path) = true.

Lemma emits_test : emits P test.
Proof.
  unfold test, mbind, M_bind.
  apply emits_bind; [apply emits_log; exact P_test|]. intros ?.
  apply emits_bind; [apply emits_get_self|]. intros self_.
  destruct (token self_); [|apply emits_raise].
  apply emits_bind; [apply emits_lift|]. intros [|]; [apply emits_ret|].
  apply emits_bind.
  - destruct (test_args self_), (test_condition self_); try apply emits_ret.
    apply emits_bind; [apply emits_headers|]. intros ?.
    apply emits_bind; [apply emits_get, P_get|]. intros ?. apply emits_ret.
  - intro. emits_tac.
Qed.

Lemma emits_save_token : emits P save_token.
Proof.
  unfold save_token, mbind, M_bind.
  apply emits_bind; [apply emits_token_safe|]. intros ?.
  apply emits_bind; [apply emits_get_self|]. intros self_.
  destruct (token_file_path self_); [|apply emits_raise].
  destruct (String.eqb _ _); [apply emits_raise|].
  apply emits_bind; [apply emits_log, P_write|]. intros ?. apply emits_write_file.
Qed.

Lemma emits_load_token : emits P load_token.
Proof.
  unfold load_token, mbind, M_bind.
  apply emits_bind; [apply emits_get_self|]. intros self_.
  apply emits_bind; [|intro; emits_tac].
  destruct (token_file_path self_) as [path|]; [|apply emits_ret].
  intros s. destruct (files (world s) !! path); [|exists []; rewrite app_nil_r; split; reflexivity].
  destruct (String.eqb path ""); [exists []; rewrite app_nil_r; split; reflexivity|].
  revert s. apply emits_bind; [apply emits_log, P_read|]. intros ?.
  destruct (json_loads _); emits_tac.
Qed.

Lemma emits_request_token_body (user : bool) (which : args_ref) :
  (user = true -> P EvUserAuthorisation = true) ->
  emits P (request_token_body user which).
Proof.
  intros Hua. unfold request_token_body, mbind, M_bind.
  apply emits_bind; [apply emits_get_self|]. intros self_.
  apply emits_bind; [apply emits_deref|]. intro args.
  apply emits_bind.
  - destruct user; simpl; [|apply emits_ret].
    destruct (_ && _); [|apply emits_ret].
    unfold _auth_user, mbind, M_bind.
    apply emits_bind; [apply emits_get_self|]. intros self'.
    destruct (user_args self'); [|apply emits_ret].
    apply emits_bind; [apply emits_log; auto|]. intros ?.
    apply emits_bind; [apply emits_put_self|]. intros ?.
    apply emits_bind; [apply emits_post, P_post|]. intros ?.
    apply emits_bind; [apply emits_accept_code|]. intros ?.
    apply emits_assign_data.
  - intro. apply emits_bind; [apply emits_deref|]. intro args'.
    apply emits_bind; [apply emits_post, P_post|]. intro resp.
    apply emits_bind; [apply emits_now|]. intros ?.
    destruct resp; try apply emits_raise.
    emits_tac.
Qed.

Lemma emits_request_token (user : bool) (which : args_ref) :
  P (EvRequestToken user which) = true ->
  (user = true -> P EvUserAuthorisation = true) ->
  emits P (request_token user which).
Proof.
  intros Hrt Hua. unfold request_token, mbind, M_bind.
  apply emits_bind; [apply emits_log; exact Hrt|]. intros ?.
  apply emits_request_token_body. exact Hua.
Qed.

End Emitters.

(** ** What leaves the authoriser alone *)

Lemma keeps_bind {A B} (m : M A) (f : A -> M B) :
  keeps_self m -> (forall a, keeps_self (f a)) -> keeps_self (bind m f).
Proof.
  intros Hm Hf s. unfold bind. specialize (Hm s).
  destruct (m s) as [[a|e] s']; simpl in Hm; [|exact Hm].
  rewrite Hf. exact Hm.
Qed.

Lemma keeps_exchange : keeps_self exchange.
Proof. intros s. unfold exchange. destruct (replies (world s)); reflexivity. Qed.

Ltac keeps_tac :=
  repeat first
    [ apply keeps_exchange
    | apply keeps_bind; [| intro]
    | match goal with
      | |- keeps_self (if ?b then _ else _) => destruct b
      | |- keeps_self (match ?x with _ => _ end) => destruct x
      end
    | (intros ?; reflexivity) ].

Lemma keeps_headers : keeps_self headers.
Proof. unfold headers, mbind, M_bind. keeps_tac. Qed.

Lemma keeps_test `{JsonLib} : keeps_self test.
Proof.
  unfold test, mbind, M_bind.
  apply keeps_bind; [intros ?; reflexivity|]. intros ?.
  apply keeps_bind; [intros ?; reflexivity|]. intros self_.
  destruct (token self_); [|intros ?; reflexivity].
  apply keeps_bind; [intros ?; reflexivity|]. intros [|]; [intros ?; reflexivity|].
  apply keeps_bind.
  - destruct (test_args self_), (test_condition self_); try (intros ?; reflexivity).
    apply keeps_bind; [apply keeps_headers|]. intros ?.
    unfold get, mbind, M_bind. keeps_tac.
  - intros ?. keeps_tac.
Qed.

Lemma dict_mem_get (k : string) (d : Py.dict) :
  dict_mem k d = true -> dict_get k d = Some (default PNone (dict_get k d)).
Proof.
  induction d as [|[k' v] d IH]; simpl; [discriminate|].
  destruct (String.eqb k k'); [reflexivity | exact IH].
Qed.

(** C9, on the code. Without a token path, [load_token] is the no-op the
    claim describes, but [save_token] is not: whatever the token, it
    raises ([open(None, "w")] is a [TypeError]), and nothing is written.
    With a path, [save_token] writes the token, as JSON, at that path. *)
Theorem save_token_without_path `{JsonLib} (s : state) :
  (token_file_path (self s) = None ->
     load_token s = (Ok (token (self s)), s)
     /\ (exists e, save_token s = (Raise e, s))
     /\ (forall d, token (self s) = Some (PDict d) -> safe_items d = Ok tt ->
           save_token s = (Raise TypeError, s)))
  /\ (forall path d, token_file_path (self s) = Some path -> path <> "" ->
        token (self s) = Some (PDict d) -> safe_items d = Ok tt ->
        fst (save_token s) = Ok tt
        /\ self (snd (save_token s)) = self s
        /\ files (world (snd (save_token s)))
           = <[path := json_dumps (PDict d)]> (files (world s))).
Proof.
  split.
  - intros Hpath. unfold load_token, save_token, token_safe, mbind, M_bind, bind, get_self.
    simpl. rewrite Hpath. simpl. split; [reflexivity|]. split.
    + destruct (token (self s)) as [[| | | | |d]|]; simpl; eauto.
      destruct (safe_items d) as [[]|e]; simpl; rewrite ?Hpath; eauto.
    + intros d -> Hsafe. simpl. rewrite Hsafe. simpl. rewrite Hpath. reflexivity.
  - intros path d Hpath Hne Htok Hsafe.
    unfold save_token, token_safe, mbind, M_bind, bind, get_self. simpl.
    rewrite Htok. simpl. rewrite Hsafe. simpl. rewrite Hpath.
    destruct (String.eqb path "") eqn:E; [apply String.eqb_eq in E; contradiction|].
    simpl. rewrite Htok. repeat split; reflexivity.
Qed.

Lemma save_token_without_path_witness :
  load_token (Samples.auth_state None []) = (Ok (Some (PDict Samples.stale_token)),
                                             Samples.auth_state None [])
  /\ save_token (Samples.auth_state None []) = (Raise TypeError, Samples.auth_state None [])
  /\ files (world (snd (save_token (Samples.auth_state (Some "token.json") []))))
     = <["token.json" := json_dumps (PDict Samples.stale_token)]> ∅.
Proof.
  destruct (save_token_without_path (Samples.auth_state None [])) as (Hnone & _).
  destruct (save_token_without_path (Samples.auth_state (Some "token.json") []))
    as (_ & Hsome).
  destruct Hnone as (Hload & _ & Hsave); [reflexivity|].
  split; [exact Hload|]. split.
  - apply (Hsave Samples.stale_token); reflexivity.
  - apply (Hsome "token.json" Samples.stale_token); try reflexivity. discriminate.
Defined.

(** ** The cascade of [auth] *)

(** With a held token that fails [test] and carries a refresh token, and
    with a refresh flow configured, [auth] goes straight to the refresh. *)
Lemma auth_refreshes `{JsonLib} (s s1 : state) (d : Py.dict) (ra : RequestArgs) :
  token (self s) = Some (PDict d) ->
  dict_mem "refresh_token" d = true ->
  refresh_args (self s) = Some ra ->
  test s = (Ok false, s1) ->
  auth false false s
  = bind (request_token false RefreshArgs) (fun _ => after_refresh)
      {| self := set_refresh_args (self s)
                   (Some (set_data ra "refresh_token"
                            (default PNone (dict_get "refresh_token" d))));
         world := world s1 |}.
Proof.
  intros Htok Hmem Hra Htest.
  assert (Hself : self s1 = self s).
  { pose proof (keeps_test s) as Hk. rewrite Htest in Hk. exact Hk. }
  unfold auth, after_refresh, mbind, M_bind.
  rewrite (bind_ok get_self _ s s (self s) eq_refl).
  rewrite Htok. simpl bool_decide. simpl negb. simpl orb. simpl andb. cbv iota.
  rewrite (bind_ok (ret tt) _ s s tt eq_refl).
  rewrite (bind_ok get_self _ s s (self s) eq_refl).
  rewrite Htok.
  rewrite (bind_ok (ret tt) _ s s tt eq_refl).
  rewrite (bind_ok test _ s s1 false Htest).
  rewrite (bind_ok get_self _ s1 s1 (self s1) eq_refl).
  rewrite Hself, Htok. cbv iota.
  assert (Hin : lift (py_in "refresh_token" (PDict d)) s1 = (Ok true, s1))
    by (unfold lift; simpl; rewrite Hmem; reflexivity).
  rewrite (bind_ok _ _ s1 s1 true Hin).
  rewrite Hra. simpl bool_decide. simpl negb. simpl andb. cbv iota.
  rewrite !bind_assoc.
  assert (Hsub : lift (subscript (default PNone (Some (PDict d))) "refresh_token") s1
                 = (Ok (default PNone (dict_get "refresh_token" d)), s1))
    by (unfold lift; simpl; rewrite (dict_mem_get _ _ Hmem); reflexivity).
  rewrite (bind_ok _ _ s1 s1 _ Hsub).
  assert (Hassign :
    assign_data RefreshArgs "refresh_token" (default PNone (dict_get "refresh_token" d)) s1
    = (Ok tt, {| self := set_refresh_args (self s)
                           (Some (set_data ra "refresh_token"
                                    (default PNone (dict_get "refresh_token" d))));
                 world := world s1 |})).
  { unfold assign_data, mbind, M_bind.
    rewrite (bind_ok get_self _ s1 s1 (self s1) eq_refl).
    rewrite Hself, Hra. reflexivity. }
  rewrite bind_assoc, (bind_ok _ _ s1 _ tt Hassign).
  rewrite bind_assoc. reflexivity.
Qed.

Lemma emits_at {A} (P : event -> bool) (m : M A) (s s' : state) (r : result A) :
  emits P m -> m s = (r, s') ->
  exists evs, trace (world s') = (trace (world s) ++ evs)%list /\ forallb P evs = true.
Proof. intros Hm E. specialize (Hm s). rewrite E in Hm. exact Hm. Qed.

Lemma quiet_test `{JsonLib} : emits quiet test.
Proof. apply emits_test; reflexivity. Qed.

Lemma quiet_refresh `{JsonLib} : emits quiet (request_token false RefreshArgs).
Proof. apply emits_request_token; try reflexivity. discriminate. Qed.

Lemma quiet_save_and_headers `{JsonLib} : emits quiet (bind save_token (fun _ => headers)).
Proof.
  apply emits_bind; [apply emits_save_token; reflexivity|]. intros ?. apply emits_headers.
Qed.

Lemma emits_after_refresh `{JsonLib} : emits any_event after_refresh.
Proof.
  unfold after_refresh.
  apply emits_bind; [apply emits_test; reflexivity|]. intros valid.
  apply emits_bind.
  - destruct valid; [apply emits_ret|].
    apply emits_bind; [apply emits_request_token; reflexivity|]. intros ?.
    apply emits_bind; [apply emits_test; reflexivity|]. intros [|]; [apply emits_ret|].
    apply emits_bind; [apply emits_token_safe|]. intros ?. apply emits_raise.
  - intros ?. apply emits_bind; [apply emits_save_token; reflexivity|]. intros ?.
    apply emits_headers.
Qed.

(** The refresh request goes out as the first thing [request_token] does
    for it. *)
Lemma refresh_posts `{JsonLib} {A} (K : unit -> M A) (s0 : state) (r : RequestArgs) :
  refresh_args (self s0) = Some r ->
  (forall u, emits any_event (K u)) ->
  exists after,
    trace (world (snd (bind (request_token_body false RefreshArgs) K s0)))
    = (trace (world s0) ++ EvPost (args_url r) :: after)%list.
Proof.
  intros Hr HK.
  assert (Hderef : deref RefreshArgs s0 = (Ok r, s0)).
  { unfold deref, mbind, M_bind. rewrite (bind_ok get_self _ s0 s0 (self s0) eq_refl).
    rewrite Hr. reflexivity. }
  unfold request_token_body, mbind, M_bind.
  rewrite bind_assoc, (bind_ok get_self _ s0 s0 (self s0) eq_refl).
  rewrite bind_assoc, (bind_ok _ _ s0 s0 r Hderef).
  cbn [andb]. rewrite bind_assoc, (bind_ok (ret tt) _ s0 s0 tt eq_refl).
  rewrite bind_assoc, (bind_ok _ _ s0 s0 r Hderef).
  unfold post, mbind, M_bind. rewrite !bind_assoc. unfold bind at 1. cbn [log fst snd].
  match goal with
  | |- context [bind exchange ?k ?s0'] =>
      assert (Hrest : emits any_event (bind exchange k))
  end.
  { apply emits_bind; [apply emits_exchange|]. intros resp.
    apply emits_bind; [|exact HK].
    apply emits_bind; [apply emits_now|]. intros ?.
    destruct resp; try apply emits_raise. emits_tac. }
  match goal with
  | |- context [bind exchange ?k ?s0'] => destruct (Hrest s0') as (after & Hafter & _)
  end.
  exists after. rewrite Hafter. cbn [world trace]. rewrite <- app_assoc. reflexivity.
Qed.

(** C5. With a held token that fails [test()] but contains a
    [refresh_token], and a refresh flow configured, [auth()] requests the
    refreshed token before any step of the interactive flow and tests again
    afterwards. If the refreshed token passes, the run has no step of the
    interactive flow at all and goes on to save the token and form the
    headers. If it fails again, and the token obtained by the full
    re-authorisation fails too, [auth()] raises. *)
Theorem refresh_cascade `{JsonLib} (s s1 : state) (d : Py.dict) (ra : RequestArgs) :
  token (self s) = Some (PDict d) ->
  dict_mem "refresh_token" d = true ->
  refresh_args (self s) = Some ra ->
  test s = (Ok false, s1) ->
  let s2 := {| self := set_refresh_args (self s)
                         (Some (set_data ra "refresh_token"
                                  (default PNone (dict_get "refresh_token" d))));
               world := world s1 |} in
  let out := auth false false s in
  (exists before after,
     trace (world (snd out))
     = (trace (world s) ++ before
        ++ EvRequestToken false RefreshArgs :: EvPost (args_url ra) :: after)%list
     /\ forallb quiet before = true)
  /\ (forall s3 s4,
        request_token false RefreshArgs s2 = (Ok tt, s3) ->
        test s3 = (Ok true, s4) ->
        out = bind save_token (fun _ => headers) s4
        /\ exists evs,
             trace (world (snd out)) = (trace (world s) ++ evs)%list
             /\ forallb quiet evs = true)
  /\ (forall s3 s4 s5 s6,
        request_token false RefreshArgs s2 = (Ok tt, s3) ->
        test s3 = (Ok false, s4) ->
        request_token true AuthArgs s4 = (Ok tt, s5) ->
        test s5 = (Ok false, s6) ->
        exists e, fst out = Raise e
                  /\ (fst (token_safe s6) = Ok tt -> e = ConnectionError)).
Proof.
  intros Htok Hmem Hra Htest s2 out.
  assert (Hout : out = bind (request_token false RefreshArgs) (fun _ => after_refresh) s2)
    by (apply (auth_refreshes s s1 d ra); assumption).
  destruct (emits_at quiet test s s1 (Ok false) quiet_test Htest) as (evs1 & Ht1 & Hq1).
  split; [|split].
  - (* the refresh comes first *)
    exists evs1.
    rewrite Hout. unfold request_token, mbind, M_bind.
    rewrite bind_assoc. unfold bind at 1. cbn [log fst snd].
    match goal with
    | |- context [bind (request_token_body false RefreshArgs) _ ?s0] =>
        destruct (refresh_posts (fun _ => after_refresh) s0
                    (set_data ra "refresh_token"
                       (default PNone (dict_get "refresh_token" d))))
          as (after & Hafter);
          [reflexivity | intros ?; apply emits_after_refresh |]
    end.
    exists after. rewrite Hafter. unfold s2. cbn [world trace args_url set_data]. rewrite Ht1.
    rewrite <- !app_assoc. split; [reflexivity | exact Hq1].
  - (* the refreshed token passes *)
    intros s3 s4 Hrefresh Hvalid.
    assert (Hrun : out = bind save_token (fun _ => headers) s4).
    { rewrite Hout. rewrite (bind_ok _ _ s2 s3 tt Hrefresh).
      unfold after_refresh. rewrite (bind_ok _ _ s3 s4 true Hvalid).
      rewrite (bind_ok (ret tt) _ s4 s4 tt eq_refl). reflexivity. }
    split; [exact Hrun|].
    destruct (emits_at quiet _ s2 s3 (Ok tt) quiet_refresh Hrefresh) as (evs2 & Ht2 & Hq2).
    destruct (emits_at quiet test s3 s4 (Ok true) quiet_test Hvalid) as (evs3 & Ht3 & Hq3).
    destruct (quiet_save_and_headers s4) as (evs4 & Ht4 & Hq4).
    exists (evs1 ++ evs2 ++ evs3 ++ evs4)%list.
    rewrite Hrun, Ht4, Ht3, Ht2. unfold s2. cbn [world]. rewrite Ht1.
    rewrite !forallb_app, Hq1, Hq2, Hq3, Hq4, <- !app_assoc. split; reflexivity.
  - (* neither the refreshed nor the new token passes *)
    intros s3 s4 s5 s6 Hrefresh Hinvalid Hnew Hinvalid'.
    assert (Hrun : out = bind (bind token_safe (fun _ => @raise unit ConnectionError))
                           (fun _ => bind save_token (fun _ => headers)) s6).
    { rewrite Hout. rewrite (bind_ok _ _ s2 s3 tt Hrefresh).
      unfold after_refresh. rewrite (bind_ok _ _ s3 s4 false Hinvalid).
      rewrite bind_assoc, (bind_ok _ _ s4 s5 tt Hnew).
      rewrite bind_assoc, (bind_ok _ _ s5 s6 false Hinvalid'). reflexivity. }
    rewrite Hrun. unfold bind.
    destruct (token_safe s6) as [[[]|e] s7]; simpl.
    + exists ConnectionError. split; reflexivity.
    + exists e. split; [reflexivity | discriminate].
Qed.



Lemma refresh_cascade_witness :
  (fst (auth false false Samples.refreshing) = Ok [("Authorization", PStr "Bearer new")]
   /\ forallb quiet (trace (world (snd (auth false false Samples.refreshing)))) = true)
  /\ fst (auth false false Samples.hopeless) = Raise ConnectionError.
Proof.
  split.
  - destruct (refresh_cascade Samples.refreshing (snd (test Samples.refreshing))
                Samples.stale_token Samples.refresh_args_sent)
      as (_ & Hpass & _);
      [reflexivity | reflexivity | reflexivity | vm_compute; reflexivity |].
    destruct (Hpass (snd (request_token false RefreshArgs
                            (Samples.at_refresh Samples.refreshing)))
                    (snd (test (snd (request_token false RefreshArgs
                                       (Samples.at_refresh Samples.refreshing))))))
      as (Hrun & evs & Htrace & Hquiet);
      [vm_compute; reflexivity | vm_compute; reflexivity |].
    split.
    + rewrite Hrun. vm_compute. reflexivity.
    + rewrite Htrace. exact Hquiet.
  - destruct (refresh_cascade Samples.hopeless (snd (test Samples.hopeless))
                Samples.stale_token Samples.refresh_args_sent)
      as (_ & _ & Hfail);
      [reflexivity | reflexivity | reflexivity | vm_compute; reflexivity |].
    pose (s3 := snd (request_token false RefreshArgs (Samples.at_refresh Samples.hopeless))).
    pose (s4 := snd (test s3)).
    pose (s5 := snd (request_token true AuthArgs s4)).
    pose (s6 := snd (test s5)).
    destruct (Hfail s3 s4 s5 s6) as (e & Hraise & He);
      [vm_compute; reflexivity | vm_compute; reflexivity | vm_compute; reflexivity
      | vm_compute; reflexivity |].
    rewrite Hraise. f_equal. apply He. vm_compute. reflexivity.
Defined.

End AuthoriserFacts.

(* ===================================================================== *)
(** * Facts about the request handler *)
(* ===================================================================== *)

Module HandlerFacts.
Import Handler.

Section Loop.

Context `{JsonLib}.
Variable h : RequestHandler.




End Loop.



(** The scenario of [test_backoff]: two failures, then the third attempt
    succeeds. *)
Example backoff_scenario :
  request 5 Samples.handler (Samples.remote 2 Samples.timed_out Samples.found)
  = (Some (Ok Samples.x1),
     {| endpoint := endpoint (Samples.remote 2 Samples.timed_out Samples.found);
        calls := 3;
        slept := [BackoffWait 100; BackoffWait 200] |}).
Proof. vm_compute. reflexivity. Qed.

(** C8. For a response with a [retry-after] hint that reads as [wait]
    seconds: within the ceiling, [handle_wait_time] sleeps [wait] seconds
    and signals a retry, and the call goes on with exactly one more send
    before it looks at a response again; above the ceiling it raises an
    [APIError] with no sleep, and the call ends there with no further send.
    Without the header, [handle_wait_time] neither sleeps nor signals a
    retry. *)
Theorem rate_limit_ceiling `{JsonLib} (h : RequestHandler) (resp : Response) (w : World) :
  (forall hint wait,
     header "retry-after" (headers resp) = Some hint ->
     Json.read_int hint = Some (wait, EmptyString) ->
     (wait <= timeout h ->
        handle_wait_time h resp w = (Ok true, sleep (RateLimitWait wait) w)
        /\ (is_success resp = false -> endpoint w (calls w) = resp ->
            forall fuel failed delay,
              request_loop (S fuel) h failed delay w
              = request_loop fuel h failed delay
                  {| endpoint := endpoint w; calls := S (calls w);
                     slept := (slept w ++ [RateLimitWait wait])%list |}))
     /\ (timeout h < wait ->
         exists msg,
           handle_wait_time h resp w = (Raise (APIError msg), w)
           /\ (is_success resp = false -> endpoint w (calls w) = resp ->
               forall fuel failed delay,
                 request_loop (S fuel) h failed delay w
                 = (Some (Raise (APIError msg)),
                    {| endpoint := endpoint w; calls := S (calls w); slept := slept w |}))))
  /\ (header "retry-after" (headers resp) = None ->
      handle_wait_time h resp w = (Ok false, w)).
Proof.
  split.
  - intros hint wait Hhint Hread. split.
    + intros Hle.
      assert (Hcmp : (timeout h <? wait) = false) by (apply Z.ltb_ge; exact Hle).
      split.
      * unfold handle_wait_time. rewrite Hhint, Hread, Hcmp. reflexivity.
      * intros Hfail Hresp fuel failed delay. simpl.
        rewrite Hresp, Hfail. unfold handle_wait_time.
        rewrite Hhint, Hread. simpl. rewrite Hcmp. reflexivity.
    + intros Hgt.
      assert (Hcmp : (timeout h <? wait) = true) by (apply Z.ltb_lt; exact Hgt).
      eexists. split.
      * unfold handle_wait_time. rewrite Hhint, Hread, Hcmp. reflexivity.
      * intros Hfail Hresp fuel failed delay. simpl.
        rewrite Hresp, Hfail. unfold handle_wait_time.
        rewrite Hhint, Hread. simpl. rewrite Hcmp. reflexivity.
  - intros Hnone. unfold handle_wait_time. rewrite Hnone. reflexivity.
Qed.

Lemma rate_limit_ceiling_witness :
  request 5 Samples.handler (Samples.remote 1 (Samples.rate_limited "1") Samples.found)
  = request_loop 4 Samples.handler 0 100
      {| endpoint := endpoint (Samples.remote 1 (Samples.rate_limited "1") Samples.found);
         calls := 1; slept := [RateLimitWait 1] |}
  /\ (exists msg,
        request 5 Samples.handler
          (Samples.remote 1 (Samples.rate_limited "2000") Samples.found)
        = (Some (Raise (APIError msg)),
           {| endpoint :=
                endpoint (Samples.remote 1 (Samples.rate_limited "2000") Samples.found);
              calls := 1; slept := [] |}))
  /\ handle_wait_time Samples.handler Samples.found
       (Samples.remote 0 Samples.found Samples.found)
     = (Ok false, Samples.remote 0 Samples.found Samples.found).
Proof.
  split; [|split].
  - destruct (rate_limit_ceiling Samples.handler (Samples.rate_limited "1")
                (Samples.remote 1 (Samples.rate_limited "1") Samples.found))
      as (Hhint & _).
    destruct (Hhint "1" 1 eq_refl eq_refl) as (Hwithin & _).
    destruct Hwithin as (_ & Hretry); [simpl; lia|].
    apply (Hretry eq_refl eq_refl 4%nat 0%nat 100).
  - destruct (rate_limit_ceiling Samples.handler (Samples.rate_limited "2000")
                (Samples.remote 1 (Samples.rate_limited "2000") Samples.found))
      as (Hhint & _).
    destruct (Hhint "2000" 2000 eq_refl eq_refl) as (_ & Hover).
    destruct Hover as (msg & _ & Hraise); [simpl; lia|].
    exists msg. apply (Hraise eq_refl eq_refl 4%nat 0%nat 100).
  - destruct (rate_limit_ceiling Samples.handler Samples.found
                (Samples.remote 0 Samples.found Samples.found)) as (_ & Hnone).
    apply Hnone. reflexivity.
Defined.

(** The scenarios of the rate-limit property: one sleep and one retry for
    a short wait, none for a long one. *)
Example rate_limit_scenario :
  request 5 Samples.handler (Samples.remote 1 (Samples.rate_limited "1") Samples.found)
  = (Some (Ok Samples.x1),
     {| endpoint := endpoint (Samples.remote 1 (Samples.rate_limited "1") Samples.found);
        calls := 2;
        slept := [RateLimitWait 1] |}).
Proof. vm_compute. reflexivity. Qed.

End HandlerFacts.

(* ===================================================================== *)
(** * More facts about the SQLite backend *)
(* ===================================================================== *)

Module SQLiteMore.
Import SQLite.

Lemma sql_eqb_eq (a b : sql_value) : sql_eqb a b = true -> a = b.
Proof.
  destruct a, b; simpl; try discriminate.
  - intros E. apply Z.eqb_eq in E. congruence.
  - intros E. apply String.eqb_eq in E. congruence.
Qed.

Lemma key_eqb_eq (a b : key) : key_eqb a b = true -> a = b.
Proof.
  revert b. induction a as [|x a IH]; intros [|y b]; simpl; try discriminate; auto.
  intros E. apply andb_true_iff in E as [Exy Eab].
  apply sql_eqb_eq in Exy. apply IH in Eab. congruence.
Qed.



















Section Invariant.

Context `{JsonLib}.
Variable repo : SQLiteTable.




End Invariant.


Lemma live_antitone (now now' : Z) (r : row) :
  now <= now' -> live now' r = true -> live now r = true.
Proof. unfold live. intros Hle Hl. apply Z.ltb_lt in Hl. apply Z.ltb_lt. lia. Qed.

Lemma filter_length_mono {A} (p q : A -> bool) (l : list A) :
  (forall a, p a = true -> q a = true) ->
  (length (List.filter p l) <= length (List.filter q l))%nat.
Proof.
  intros Hpq. induction l as [|a l IH]; simpl; [lia|].
  destruct (p a) eqn:E.
  - rewrite (Hpq a E). simpl. lia.
  - destruct (q a); simpl; lia.
Qed.

(** X5. The count of live entries never exceeds the count of all entries,
    and without a write it can only fall as time passes; the count of all
    entries does not depend on the time. Both counts raise
    [OperationalError] when the table is missing. *)
Theorem count_bounds `{JsonLib} (repo : SQLiteTable) (now now' : Z) (db : connection) :
  (forall t, db !! name (settings repo) = Some t ->
     exists n_all n_live n_live',
       count repo true now db = Ok n_all
       /\ count repo true now' db = Ok n_all
       /\ count repo false now db = Ok n_live
       /\ count repo false now' db = Ok n_live'
       /\ (n_live <= n_all)%nat
       /\ (now <= now' -> (n_live' <= n_live)%nat))
  /\ (db !! name (settings repo) = None ->
      forall expired, count repo expired now db = Raise OperationalError).
Proof.
  split.
  - intros t Ht. unfold count.
    rewrite !(SQLiteFacts.execute_ok repo db t) by auto.
    unfold mbind, result_bind. cbn [orb].
    do 3 eexists. repeat split.
    + apply filter_length_mono. reflexivity.
    + intros Hle. apply filter_length_mono. intros r. apply live_antitone. exact Hle.
  - intros Hnone expired. unfold count, execute. rewrite Hnone. reflexivity.
Qed.

Lemma count_bounds_witness :
  exists n_all n_live n_live',
    count Samples.tracks_table true 10 Samples.db_with_xyz = Ok n_all
    /\ count Samples.tracks_table true 1000002 Samples.db_with_xyz = Ok n_all
    /\ count Samples.tracks_table false 10 Samples.db_with_xyz = Ok n_live
    /\ count Samples.tracks_table false 1000002 Samples.db_with_xyz = Ok n_live'
    /\ (n_live <= n_all)%nat
    /\ (10 <= 1000002 -> (n_live' <= n_live)%nat).
Proof.
  destruct (count_bounds Samples.tracks_table 10 1000002 Samples.db_with_xyz) as (Hsome & _).
  destruct (Samples.db_with_xyz !! name (settings Samples.tracks_table)) as [t|] eqn:E.
  - apply (Hsome t). reflexivity.
  - vm_compute in E. discriminate E.
Defined.

(** A hit of [get_response] is a row that [contains] counts. *)
Lemma find_some_filter {A} (p q : A -> bool) (l : list A) (a : A) :
  List.find p l = Some a -> (forall x, p x = true -> q x = true) ->
  Nat.ltb 0 (length (List.filter q l)) = true.
Proof.
  intros Hfind Hpq. apply find_some in Hfind as [Hin Hp].
  assert (Hq : In a (List.filter q l)) by (apply filter_In; auto).
  destruct (List.filter q l); [destruct Hq | reflexivity].
Qed.

(** X7. Whenever [get_response] returns a payload for a request,
    [contains] answers true for it at the same time. (Not the other way
    round: [contains] also counts rows without data.) *)
Theorem hit_implies_contains `{JsonLib} (repo : SQLiteTable) (req : RepositoryRequest)
    (now : Z) (db : connection) (v : Py.value) :
  get_response repo req now db = Ok v ->
  v <> PNone ->
  contains repo req now db = Ok true.
Proof.
  unfold get_response, contains. intros Hget Hv.
  destruct (get_key_from_request repo req) as [[|x k]|]; simpl in Hget;
    try (injection Hget as <-; contradiction).
  destruct (execute db _ _ _) as [t|e]; [|discriminate]. simpl in *.
  destruct (List.find _ t) as [r|] eqn:Efind;
    [|injection Hget as <-; contradiction].
  f_equal. apply (find_some_filter _ _ t r Efind).
  intros r' Hr'. apply andb_true_iff in Hr' as [Hr' Hkey].
  apply andb_true_iff in Hr' as [_ Hlive]. rewrite Hlive, Hkey. reflexivity.
Qed.

Lemma hit_implies_contains_witness :
  contains Samples.tracks_table (OfRequest Samples.get_abc) 10 Samples.db_with_xyz = Ok true.
Proof.
  apply (hit_implies_contains Samples.tracks_table (OfRequest Samples.get_abc) 10
           Samples.db_with_xyz Samples.x1).
  - vm_compute. reflexivity.
  - discriminate.
Defined.

Lemma NoDup_map_eq {A B} (f : A -> B) (l : list A) (a b : A) :
  NoDup (List.map f l) -> In a l -> In b l -> f a = f b -> a = b.
Proof.
  induction l as [|x l IH]; simpl; [tauto|].
  intros Hnd Ha Hb Hab. apply NoDup_cons in Hnd as [Hx Hnd].
  assert (Hout : forall y, In y l -> f y <> f x).
  { intros y Hy Hyx. apply Hx. apply list_elem_of_In. rewrite <- Hyx.
    apply in_map. exact Hy. }
  destruct Ha as [<- | Ha], Hb as [<- | Hb]; auto.
  - exfalso. apply (Hout b Hb). congruence.
  - exfalso. apply (Hout a Ha). congruence.
Qed.

(** X6. Over a table that keeps its key constraints, the iteration of a
    repository yields as many pairs as [count] finds live entries, every
    key it yields is one [contains] confirms, and [get_response] under that
    key returns the yielded data, parsed (or absent for a row without
    data). *)
Theorem aiter_agrees `{JsonLib} (repo : SQLiteTable) (now : Z) (db : connection)
    (t : table) :
  db !! name (settings repo) = Some t ->
  well_keyed repo t ->
  exists items,
    __aiter__ repo now db = Ok items
    /\ count repo false now db = Ok (length items)
    /\ forall k d, In (k, d) items ->
         contains repo (OfKey k) now db = Ok true
         /\ get_response repo (OfKey k) now db
            = Ok match d with Some s => deserialize (PStr s) | None => PNone end.
Proof.
  intros Ht [Hall Hnd].
  exists (List.map (fun r => (row_key r, data r)) (List.filter (live now) t)).
  split; [|split].
  - unfold __aiter__. rewrite (SQLiteFacts.execute_ok repo db t) by auto. reflexivity.
  - unfold count. rewrite (SQLiteFacts.execute_ok repo db t) by auto.
    unfold mbind, result_bind. cbn [orb]. rewrite length_map. reflexivity.
  - intros k d Hin. apply in_map_iff in Hin as (r & Hpair & Hr).
    injection Hpair as <- <-. apply filter_In in Hr as [Hr Hlive].
    rewrite Forall_forall in Hall.
    destruct (Hall r (proj2 (list_elem_of_In _ _) Hr)) as [Hlen Hnull].
    assert (Hrefl : key_eqb (row_key r) (row_key r) = true)
      by (apply SQLiteFacts.key_eqb_refl; exact Hnull).
    assert (Hfalsy : falsy_key (Some (row_key r)) = false).
    { destruct (row_key r); [|reflexivity]. unfold _primary_key_columns in Hlen.
      destruct (pagination (settings repo)); discriminate. }
    split.
    + unfold contains. cbn [get_key_from_request].
      rewrite (SQLiteFacts.execute_ok repo db t) by (auto; lia).
      unfold mbind, result_bind. f_equal.
      assert (Hq : In r (List.filter (fun r0 => live now r0
                                               && key_eqb (row_key r0) (row_key r)) t))
        by (apply filter_In; rewrite Hlive, Hrefl; auto).
      destruct (List.filter _ t); [destruct Hq | reflexivity].
    + unfold get_response. cbn [get_key_from_request]. rewrite Hfalsy.
      cbn [default from_option id].
      rewrite (SQLiteFacts.execute_ok repo db t) by (auto; lia).
      unfold mbind, result_bind.
      destruct (List.find _ t) as [r0|] eqn:Efind.
      * apply find_some in Efind as [Hr0 HP].
        apply andb_true_iff in HP as [HP Hkey]. apply andb_true_iff in HP as [Hdata _].
        apply key_eqb_eq in Hkey.
        assert (r0 = r) as -> by (apply (NoDup_map_eq row_key t); auto).
        destruct (data r); [reflexivity|]. simpl in Hdata. discriminate Hdata.
      * destruct (data r) as [s|] eqn:Ed; [|reflexivity].
        exfalso. apply (find_none _ _ Efind) in Hr.
        rewrite Ed, Hlive, Hrefl in Hr. simpl in Hr. discriminate Hr.
Qed.

Lemma sample_rows :
  Samples.db_with_xyz !! "tracks"
  = Some [{| row_key := Samples.abc_key; row_name := None; cached_at := 0;
             expires_at := 1000000; data := Some (json_dumps Samples.x1) |};
          {| row_key := Samples.xyz_key; row_name := None; cached_at := 5;
             expires_at := 1000005; data := Some "[]" |}].
Proof. vm_compute. reflexivity. Qed.

Lemma aiter_agrees_witness :
  exists items,
    __aiter__ Samples.tracks_table 10 Samples.db_with_xyz = Ok items
    /\ count Samples.tracks_table false 10 Samples.db_with_xyz = Ok (length items)
    /\ forall k d, In (k, d) items ->
         contains Samples.tracks_table (OfKey k) 10 Samples.db_with_xyz = Ok true
         /\ get_response Samples.tracks_table (OfKey k) 10 Samples.db_with_xyz
            = Ok match d with Some s => deserialize (PStr s) | None => PNone end.
Proof.
  apply (aiter_agrees Samples.tracks_table 10 Samples.db_with_xyz _ sample_rows).
  split.
  - repeat constructor.
  - apply NoDup_cons. split; [|apply NoDup_singleton].
    rewrite list_elem_of_In. simpl. intros [E | []]. discriminate E.
Defined.

(** The sample iteration: both entries, in the order they were written. *)
Example aiter_scenario :
  __aiter__ Samples.tracks_table 10 Samples.db_with_xyz
  = Ok [(Samples.abc_key, Some (json_dumps Samples.x1)); (Samples.xyz_key, Some "[]")].
Proof. vm_compute. reflexivity. Qed.



End SQLiteMore.

(* ===================================================================== *)
(** * More facts about the cached session *)
(* ===================================================================== *)

Module SessionMore.
Import SQLite Session.

(** X9. One call of [request] sends at most one request over the
    network: none when the response comes from the cache or the URL cannot
    be built (then the call raises [InvalidURL] and yields nothing), and
    exactly one, the request as built, when it yields a response of the
    network. It never touches the clock or the remote's behaviour. *)
Theorem at_most_one_send `{JsonLib} (sess : CachedSession) (method_ url_ : string)
    (persist : bool) (body : SessionResponse -> result unit) (w : World) :
  let ex := fst (request sess method_ url_ persist body w) in
  let w' := snd (request sess method_ url_ persist body w) in
  (sent w' = sent w
   \/ exists u, _build_url sess url_ = Some u
                /\ sent w' = (sent w ++ [{| method := method_; url := u |}])%list)
  /\ (forall r d, yielded ex = Some (CachedResponse r d) -> sent w' = sent w)
  /\ (forall resp, yielded ex = Some (ClientResponse resp) ->
      sent w' = (sent w ++ [Http.request resp])%list)
  /\ (_build_url sess url_ = None ->
      ex = {| yielded := None; outcome := Raise InvalidURL |} /\ w' = w)
  /\ clock w' = clock w
  /\ server w' = server w.
Proof.
  unfold request.
  destruct (_build_url sess url_) as [u|]; [|simpl; repeat split; auto; discriminate].
  destruct (_get_cached_response sess _ _ w) as [[found|]|e] eqn:Ecache;
    [| |simpl; repeat split; auto; discriminate].
  - assert (Hc : exists r d, found = CachedResponse r d).
    { unfold _get_cached_response in Ecache.
      destruct (get_repository_from_requests _ _); [|discriminate].
      destruct (get_response _ _ _ _) as [data|]; [|discriminate]. simpl in Ecache.
      destruct (is_none data); [discriminate|].
      destruct (is_str data); [injection Ecache as <-; eauto|].
      destruct (get_repository_from_url _ _); [|discriminate].
      injection Ecache as <-; eauto. }
    destruct Hc as (r & d & ->).
    destruct (body _) as [[]|e]; simpl; repeat split; auto; discriminate.
  - unfold super_request.
    destruct (server w (length (sent w)) _) as [resp|e]; simpl.
    + destruct (body _) as [[]|e]; [destruct persist;
        [destruct (get_repository_from_requests _ _);
           [destruct (save_response _ _ _ _ _)|]|]|];
        simpl; repeat split; eauto; try discriminate;
        intros ? [= <-]; reflexivity.
    + repeat split; eauto; discriminate.
Qed.

(** X10. When the cache resolves no repository for the request, the
    request goes to the network once and its response is yielded to the
    caller; if the caller's block then ends normally, the call raises
    [AttributeError] under [persist] (the default) and ends normally
    without it. Nothing is written either way. *)
Theorem request_without_repository `{JsonLib} (sess : CachedSession)
    (method_ url_ u : string) (persist : bool) (body : SessionResponse -> result unit)
    (w : World) (resp : Response) :
  _build_url sess url_ = Some u ->
  get_repository_from_requests (cache sess) {| method := method_; url := u |} = None ->
  server w (length (sent w)) {| method := method_; url := u |} = Ok resp ->
  body (ClientResponse (answering {| method := method_; url := u |} resp)) = Ok tt ->
  request sess method_ url_ persist body w
  = ({| yielded := Some (ClientResponse (answering {| method := method_; url := u |} resp));
        outcome := if persist then Raise AttributeError else Ok tt |},
     {| db := db w; clock := clock w; server := server w;
        sent := (sent w ++ [{| method := method_; url := u |}])%list |}).
Proof.
  intros Hurl Hrepo Hnet Hbody.
  unfold request. rewrite Hurl, Hrepo. cbn [_get_cached_response].
  unfold super_request. rewrite Hnet. simpl. rewrite Hbody.
  destruct persist; reflexivity.
Qed.

Lemma request_without_repository_witness :
  outcome (fst (request {| cache := Samples.empty_cache;
                           _build_url := fun u => Some u |}
                  "GET" "http://localhost/abc" true Samples.body_ok
                  (Samples.world_of Samples.fresh_db Samples.found)))
  = Raise AttributeError.
Proof.
  rewrite (request_without_repository
             {| cache := Samples.empty_cache; _build_url := fun u => Some u |}
             "GET" "http://localhost/abc" "http://localhost/abc" true Samples.body_ok
             (Samples.world_of Samples.fresh_db Samples.found) Samples.found);
    reflexivity.
Defined.



End SessionMore.

(* ===================================================================== *)
(** * More facts about the authoriser *)
(* ===================================================================== *)

Module AuthoriserMore.
Import Authoriser AuthoriserFacts.

(** ** Dictionaries *)

Lemma dict_get_set (k k' : string) (v : Py.value) (d : Py.dict) :
  dict_get k (dict_set k' v d) = if String.eqb k k' then Some v else dict_get k d.
Proof.
  induction d as [|[k0 v0] d IH]; simpl.
  - destruct (String.eqb k k'); reflexivity.
  - destruct (String.eqb k' k0) eqn:E0; simpl.
    + apply String.eqb_eq in E0. subst k0.
      destruct (String.eqb k k'); reflexivity.
    + destruct (String.eqb k k0) eqn:E1.
      * apply String.eqb_eq in E1. subst k0.
        rewrite String.eqb_sym, E0. reflexivity.
      * exact IH.
Qed.











(** X14. [test] raises [TypeError] when no token is held. A token that
    has an ["error"] entry fails the test at once: no request is sent and
    the clock is not read. With no test request configured and a
    [test_expiry] that is not positive (the default is 0), every token
    without an ["error"] entry passes, whatever its [expires_at]. *)
Theorem test_edges `{JsonLib} (s : state) :
  (token (self s) = None -> test s = (Raise TypeError, snd (log EvTest s)))
  /\ (forall tok, token (self s) = Some tok -> py_in "error" tok = Ok true ->
        test s = (Ok false, snd (log EvTest s)))
  /\ (forall d, token (self s) = Some (PDict d) -> dict_mem "error" d = false ->
        test_args (self s) = None \/ test_condition (self s) = None ->
        test_expiry (self s) <= 0 ->
        test s = (Ok true, snd (log EvTest s))).
Proof.
  assert (Hlog : forall (K : unit -> M bool), bind (log EvTest) K s = K tt (snd (log EvTest s)))
    by reflexivity.
  unfold test, mbind, M_bind. rewrite Hlog.
  set (s0 := snd (log EvTest s)).
  rewrite (bind_ok get_self _ s0 s0 (self s) eq_refl).
  repeat split.
  - intros ->. reflexivity.
  - intros tok -> Herr. unfold bind, lift. rewrite Herr. reflexivity.
  - intros d -> Herr Hprobe Hexpiry. unfold bind at 1. unfold lift at 1.
    cbn [py_in]. rewrite Herr.
    assert (Hoff : (0 <? test_expiry (self s)) = false) by (apply Z.ltb_ge; exact Hexpiry).
    rewrite Hoff.
    assert (Hprobe' : match test_args (self s), test_condition (self s) with
                      | Some ta, Some cond =>
                          bind headers (fun _ => bind (get ta) (fun response =>
                            ret (cond response)))
                      | _, _ => ret true
                      end = ret true).
    { destruct Hprobe as [-> | ->]; [reflexivity|].
      destruct (test_args (self s)); reflexivity. }
    rewrite Hprobe'. unfold bind, lift, ret. cbn [py_in].
    rewrite andb_false_r. reflexivity.
Qed.

Lemma test_edges_witness :
  test {| self := set_token (Samples.authoriser None)
                    (Some (PDict [("error", PStr "invalid_grant")]));
          world := Samples.outside [] |}
  = (Ok false,
     snd (log EvTest {| self := set_token (Samples.authoriser None)
                                  (Some (PDict [("error", PStr "invalid_grant")]));
                        world := Samples.outside [] |})).
Proof.
  destruct (test_edges {| self := set_token (Samples.authoriser None)
                                    (Some (PDict [("error", PStr "invalid_grant")]));
                          world := Samples.outside [] |}) as (_ & Herror & _).
  apply (Herror (PDict [("error", PStr "invalid_grant")])); reflexivity.
Defined.

(** X15. When the held token passes [test], [auth()] only saves it and
    forms the headers: no token is requested, the user is not asked, and
    the token file is not read. *)
Theorem auth_keeps_valid_token `{JsonLib} (s s1 : state) (tok : Py.value) :
  token (self s) = Some tok ->
  test s = (Ok true, s1) ->
  auth false false s = bind save_token (fun _ => headers) s1
  /\ exists evs,
       trace (world (snd (auth false false s))) = (trace (world s) ++ evs)%list
       /\ forallb settled evs = true.
Proof.
  intros Htok Htest.
  assert (Hself : self s1 = self s).
  { pose proof (keeps_test s) as Hk. rewrite Htest in Hk. exact Hk. }
  assert (Hrun : auth false false s = bind save_token (fun _ => headers) s1).
  { unfold auth, mbind, M_bind.
    rewrite (bind_ok get_self _ s s (self s) eq_refl).
    rewrite Htok. simpl bool_decide. cbn [negb orb andb].
    rewrite (bind_ok (ret tt) _ s s tt eq_refl).
    rewrite (bind_ok get_self _ s s (self s) eq_refl).
    rewrite Htok.
    rewrite (bind_ok (ret tt) _ s s tt eq_refl).
    rewrite (bind_ok test _ s s1 true Htest).
    rewrite (bind_ok get_self _ s1 s1 (self s1) eq_refl).
    rewrite (bind_ok (ret false) _ s1 s1 false eq_refl).
    cbn [negb andb].
    rewrite (bind_ok (ret true) _ s1 s1 true eq_refl).
    rewrite (bind_ok (ret tt) _ s1 s1 tt eq_refl).
    reflexivity. }
  split; [exact Hrun|].
  destruct (emits_at settled test s s1 (Ok true)) as (evs1 & Ht1 & Hq1);
    [apply emits_test; reflexivity | exact Htest |].
  assert (Hsave : emits settled (bind save_token (fun _ => headers))).
  { apply emits_bind; [apply emits_save_token; reflexivity|]. intros ?. apply emits_headers. }
  destruct (Hsave s1) as (evs2 & Ht2 & Hq2).
  exists (evs1 ++ evs2)%list. rewrite Hrun, Ht2, Ht1, forallb_app, Hq1, Hq2, app_assoc.
  split; reflexivity.
Qed.

Lemma auth_keeps_valid_token_witness :
  fst (auth false false
         {| self := set_token (Samples.authoriser (Some "token.json"))
                      (Some (PDict [("access_token", PStr "fresh");
                                    ("expires_at", PInt 9000)]));
            world := Samples.outside [] |})
  = Ok [("Authorization", PStr "Bearer fresh")].
Proof.
  pose (s := {| self := set_token (Samples.authoriser (Some "token.json"))
                          (Some (PDict [("access_token", PStr "fresh");
                                        ("expires_at", PInt 9000)]));
                world := Samples.outside [] |}).
  destruct (auth_keeps_valid_token s (snd (test s))
              (PDict [("access_token", PStr "fresh"); ("expires_at", PInt 9000)]))
    as (Hrun & _); [reflexivity | vm_compute; reflexivity |].
  fold s. rewrite Hrun. vm_compute. reflexivity.
Defined.

(** X16. Under [force_new], [auth()] ignores [force_load]: it begins with
    the request of a new token on behalf of the user and never reads the
    token file. *)
Theorem auth_force_new `{JsonLib} (force_load : bool) (s : state) :
  auth force_load true s = auth false true s
  /\ exists after,
       trace (world (snd (auth force_load true s)))
       = (trace (world s) ++ EvRequestToken true AuthArgs :: after)%list
       /\ forallb not_read after = true.
Proof.
  assert (Hload : auth force_load true s = auth false true s).
  { unfold auth, mbind, M_bind.
    rewrite !(bind_ok get_self _ s s (self s) eq_refl).
    cbn [negb]. rewrite !andb_false_r. reflexivity. }
  split; [exact Hload|]. rewrite Hload.
  pose proof (emits_test not_read (fun _ => eq_refl) eq_refl) as Htest.
  pose proof (emits_token_safe not_read) as Hsafe.
  pose proof (emits_headers not_read) as Hheaders.
  pose proof (emits_save_token not_read (fun _ => eq_refl)) as Hsave.
  assert (Hreq : forall user which, emits not_read (request_token user which)).
  { intros user which. apply emits_request_token; reflexivity. }
  assert (Hbody : emits not_read (request_token_body true AuthArgs)).
  { apply emits_request_token_body; reflexivity. }
  pose proof (fun which k v => emits_assign_data not_read which k v) as Hassign.
  unfold auth, mbind, M_bind.
  rewrite (bind_ok get_self _ s s (self s) eq_refl).
  cbn [negb]. rewrite andb_false_r.
  rewrite (bind_ok (ret tt) _ s s tt eq_refl).
  rewrite (bind_ok get_self _ s s (self s) eq_refl).
  assert (Hfirst : match token (self s) with
                   | Some _ => request_token true AuthArgs
                   | None => request_token true AuthArgs
                   end = request_token true AuthArgs)
    by (destruct (token (self s)); reflexivity).
  rewrite Hfirst. unfold request_token at 1, mbind, M_bind.
  rewrite bind_assoc. unfold bind at 1. cbn [log fst snd].
  match goal with
  | |- context [bind (request_token_body true AuthArgs) ?k ?s0] =>
      assert (Hrest : emits not_read (bind (request_token_body true AuthArgs) k));
        [| destruct (Hrest s0) as (after & Hafter & Hquiet) ]
  end.
  { emits_tac. }
  exists after. rewrite Hafter. cbn [world trace]. rewrite <- app_assoc.
  split; [reflexivity | exact Hquiet].
Qed.

(** X17. A token file that does not hold JSON makes [auth()] raise
    [JSONDecodeError] as soon as it has read the file, whenever it reads
    it: when no token is held or [force_load] is given. Nothing is
    requested and the authoriser is left as it was. *)
Theorem auth_corrupt_token_file `{JsonLib} (force_load : bool) (s : state)
    (path content : string) :
  token_file_path (self s) = Some path ->
  path <> "" ->
  files (world s) !! path = Some content ->
  json_loads content = None ->
  token (self s) = None \/ force_load = true ->
  auth force_load false s = (Raise JSONDecodeError, snd (log (EvRead path) s)).
Proof.
  intros Hpath Hne Hfile Hbad Hreads.
  assert (Hcond : (negb (bool_decide (is_Some (token (self s)))) || force_load)
                  && negb false = true).
  { destruct Hreads as [-> | ->]; [reflexivity|]. rewrite orb_true_r. reflexivity. }
  unfold auth, mbind, M_bind.
  rewrite (bind_ok get_self _ s s (self s) eq_refl), Hcond.
  unfold load_token, mbind, M_bind.
  rewrite !bind_assoc, (bind_ok get_self _ s s (self s) eq_refl). rewrite Hpath.
  rewrite !bind_assoc. unfold bind at 1. rewrite Hfile.
  apply String.eqb_neq in Hne. rewrite Hne, Hbad.
  reflexivity.
Qed.

Lemma auth_corrupt_token_file_witness :
  fst (auth true false
         {| self := Samples.authoriser (Some "token.json");
            world := {| files := {["token.json" := "not json"]};
                        clock := fun n => 1000 + Z.of_nat n; ticks := 0;
                        replies := []; redirects := []; trace := [] |} |})
  = Raise JSONDecodeError.
Proof.
  rewrite (auth_corrupt_token_file true _ "token.json" "not json");
    [reflexivity | reflexivity | discriminate | reflexivity | vm_compute; reflexivity
    | right; reflexivity].
Defined.

(** X18. What [save_token] writes, [load_token] reads back: after a save
    under a path, any authoriser with that path that finds the file as it
    was written — whatever token it holds itself — loads the saved token,
    given that the JSON library reads back what it wrote for this token. *)
Theorem save_then_load `{JsonLib} (s s2 : state) (path : string) (d : Py.dict) :
  token_file_path (self s) = Some path ->
  path <> "" ->
  token (self s) = Some (PDict d) ->
  safe_items d = Ok tt ->
  json_loads (json_dumps (PDict d)) = Some (PDict d) ->
  token_file_path (self s2) = Some path ->
  files (world s2) !! path = files (world (snd (save_token s))) !! path ->
  fst (save_token s) = Ok tt
  /\ fst (load_token s2) = Ok (Some (PDict d))
  /\ token (self (snd (load_token s2))) = Some (PDict d)
  /\ files (world (snd (load_token s2))) = files (world s2).
Proof.
  intros Hpath Hne Htok Hsafe Hjson Hpath2 Hsame.
  assert (Hsave : save_token s
                  = (Ok tt, snd (write_file path (json_dumps (PDict d))
                                   (snd (log (EvWrite path) s))))).
  { unfold save_token, token_safe, mbind, M_bind.
    rewrite !bind_assoc, (bind_ok get_self _ s s (self s) eq_refl). rewrite Htok.
    unfold bind at 1. unfold lift. rewrite Hsafe.
    rewrite (bind_ok get_self _ s s (self s) eq_refl). rewrite Hpath.
    apply String.eqb_neq in Hne. rewrite Hne, Htok. reflexivity. }
  rewrite Hsave in Hsame |- *. cbn [write_file log fst snd world files] in Hsame.
  rewrite lookup_insert_eq in Hsame.
  split; [reflexivity|].
  apply String.eqb_neq in Hne.
  assert (Hload : load_token s2
                  = (Ok (Some (PDict d)),
                     {| self := set_token (self s2) (Some (PDict d));
                        world := world (snd (log (EvRead path) s2)) |})).
  { unfold load_token, mbind, M_bind.
    rewrite (bind_ok get_self _ s2 s2 (self s2) eq_refl). rewrite Hpath2.
    unfold bind at 1. rewrite Hsame, Hne.
    unfold bind at 1. cbn [log fst snd]. rewrite Hjson. reflexivity. }
  rewrite Hload. repeat split; reflexivity.
Qed.

Lemma save_then_load_witness :
  fst (load_token
         {| self := set_token (Samples.authoriser (Some "token.json")) None;
            world := world (snd (save_token (Samples.auth_state (Some "token.json") []))) |})
  = Ok (Some (PDict Samples.stale_token)).
Proof.
  destruct (save_then_load (Samples.auth_state (Some "token.json") [])
              {| self := set_token (Samples.authoriser (Some "token.json")) None;
                 world := world (snd (save_token
                                        (Samples.auth_state (Some "token.json") []))) |}
              "token.json" Samples.stale_token)
    as (_ & Hload & _);
    [reflexivity | discriminate | reflexivity | reflexivity | vm_compute; reflexivity
    | reflexivity | reflexivity |].
  exact Hload.
Defined.

(** ** What a token request leaves alone *)

Lemma preserves_bind {A B C} (f : state -> C) (m : M A) (k : A -> M B) :
  preserves f m -> (forall a, preserves f (k a)) -> preserves f (bind m k).
Proof.
  intros Hm Hk s. unfold bind. specialize (Hm s).
  destruct (m s) as [[a|e] s']; simpl in Hm; [|exact Hm].
  rewrite Hk. exact Hm.
Qed.

(** A computation that keeps [f] up to a last step keeps it whenever it
    raises, if that last step does. *)
Lemma raising_bind {A B C} (f : state -> C) (m : M A) (k : A -> M B) :
  preserves f m ->
  (forall a s e, fst (k a s) = Raise e -> f (snd (k a s)) = f s) ->
  forall s e, fst (bind m k s) = Raise e -> f (snd (bind m k s)) = f s.
Proof.
  intros Hm Hk s e. unfold bind. specialize (Hm s).
  destruct (m s) as [[a|e'] s']; simpl in Hm |- *.
  - intros Hr. rewrite (Hk a s' e Hr). exact Hm.
  - intros _. exact Hm.
Qed.

Ltac preserves_leaf :=
  intros ?; unfold exchange, accept_code;
  repeat match goal with
         | |- context [match ?x with _ => _ end] => destruct x
         end;
  reflexivity.

Ltac preserves_tac :=
  repeat first
    [ preserves_leaf
    | assumption
    | apply preserves_bind; [| intro]
    | match goal with
      | |- preserves _ (if ?b then _ else _) => destruct b
      | |- preserves _ (match ?x with _ => _ end) => destruct x
      end ].

Lemma auth_user_keeps_token `{JsonLib} (which : args_ref) :
  preserves (fun s => (token (self s), files (world s))) (_auth_user which).
Proof.
  intros s. unfold _auth_user, post, assign_data, mbind, M_bind, bind, get_self, put_self,
    log, exchange, accept_code. cbn [fst snd self world replies redirects].
  destruct (user_args (self s)); [|reflexivity]. cbn [fst snd self world replies redirects].
  destruct (replies (world s)) as [|[reply|err] rest]; try reflexivity.
  cbn [fst snd self world replies redirects].
  destruct (redirects (world s)) as [|[code|err] rr]; try reflexivity.
  destruct which; cbn [fst snd self world replies redirects set_user_args refresh_args];
    [reflexivity|].
  destruct (refresh_args (self s)); reflexivity.
Qed.

(** X19. A token request that raises — the remote unreachable, an answer
    that is no JSON object, an [expires_in] that is no number, the user
    not answering — leaves the held token and the files as they were. *)
Theorem failed_request_keeps_token `{JsonLib} (user : bool) (which : args_ref)
    (s : state) (e : exn) :
  fst (request_token user which s) = Raise e ->
  token (self (snd (request_token user which s))) = token (self s)
  /\ files (world (snd (request_token user which s))) = files (world s).
Proof.
  intros Hraise.
  pose proof (auth_user_keeps_token which) as Huser.
  pose (f := fun s : state => (token (self s), files (world s))).
  change (preserves f (_auth_user which)) in Huser.
  enough (Hkeep : f (snd (request_token user which s)) = f s)
    by (injection Hkeep as -> ->; split; reflexivity).
  revert s e Hraise. unfold request_token, request_token_body, post, deref, mbind, M_bind.
  apply (raising_bind f); [preserves_tac|]. intros _.
  apply (raising_bind f); [preserves_tac|]. intros a.
  apply (raising_bind f); [preserves_tac|]. intros args.
  apply (raising_bind f); [preserves_tac|]. intros _.
  apply (raising_bind f); [preserves_tac|]. intros args'.
  apply (raising_bind f); [preserves_tac|]. intros resp.
  apply (raising_bind f); [preserves_tac|]. intros granted_at.
  destruct resp; try (intros; reflexivity).
  apply (raising_bind f); [preserves_tac|]. intros d.
  apply (raising_bind f); [preserves_tac|]. intros a'.
  apply (raising_bind f); [preserves_tac|]. intros d'.
  intros s e Hraise. discriminate Hraise.
Qed.

Lemma failed_request_keeps_token_witness :
  fst (request_token true AuthArgs
         (Samples.auth_state (Some "token.json") [Ok (PStr "page"); Ok (PStr "page")]))
  = Raise TypeError
  /\ token (self (snd (request_token true AuthArgs
                         (Samples.auth_state (Some "token.json")
                            [Ok (PStr "page"); Ok (PStr "page")]))))
     = Some (PDict Samples.stale_token).
Proof.
  split; [vm_compute; reflexivity|].
  destruct (failed_request_keeps_token true AuthArgs
              (Samples.auth_state (Some "token.json") [Ok (PStr "page"); Ok (PStr "page")])
              TypeError) as (Htok & _); [vm_compute; reflexivity|].
  rewrite Htok. reflexivity.
Defined.

Lemma request_token_skips_user `{JsonLib} (s : state) :
  truthy (default PNone (dict_get "code" (args_data (auth_args (self s))))) = true ->
  request_token_body true AuthArgs s = request_token_body false AuthArgs s.
Proof.
  intros Hcode. unfold request_token_body, mbind, M_bind.
  rewrite !(bind_ok get_self _ s s (self s) eq_refl).
  assert (Hderef : deref AuthArgs s = (Ok (auth_args (self s)), s)) by reflexivity.
  rewrite !(bind_ok _ _ s s _ Hderef).
  rewrite Hcode. cbn [negb andb]. rewrite andb_false_r. reflexivity.
Qed.

(** X20. The authorisation code that the user's browser round trip
    yields is written into the [data] of [auth_args] that the authoriser
    holds, and it stays there: every later request of a token on behalf of
    the user, from any state with these [auth_args], goes without the
    browser round trip — it takes no new code from the listener, leaves
    [auth_args] as they are, and so posts with the code of the first
    round trip. *)
Theorem authorisation_code_kept `{JsonLib} (s : state) (ua : RequestArgs) (r : Py.value)
    (rest : list (result Py.value)) (c : string) (rr : list (result string)) :
  user_args (self s) = Some ua ->
  replies (world s) = Ok r :: rest ->
  redirects (world s) = Ok c :: rr ->
  c <> "" ->
  exists s1,
    _auth_user AuthArgs s = (Ok tt, s1)
    /\ dict_get "code" (args_data (auth_args (self s1))) = Some (PStr c)
    /\ forall s2, auth_args (self s2) = auth_args (self s1) ->
         auth_args (self (snd (request_token true AuthArgs s2))) = auth_args (self s2)
         /\ redirects (world (snd (request_token true AuthArgs s2))) = redirects (world s2)
         /\ exists evs,
              trace (world (snd (request_token true AuthArgs s2)))
              = (trace (world s2) ++ evs)%list
              /\ forallb unattended evs = true.
Proof.
  intros Hua Hreplies Hredirects Hc.
  eexists. split; [|split].
  - unfold _auth_user, post, assign_data, mbind, M_bind, bind, get_self, put_self,
      log, exchange, accept_code. cbn [fst snd self world replies redirects].
    rewrite Hua. cbn [fst snd self world replies redirects].
    rewrite Hreplies. cbn [fst snd self world replies redirects].
    rewrite Hredirects. reflexivity.
  - cbn [self set_auth_args auth_args set_data args_data]. rewrite dict_get_set. reflexivity.
  - intros s2 Hsame.
    assert (Hcode : forall s3, auth_args (self s3) = auth_args (self s2) ->
              truthy (default PNone (dict_get "code" (args_data (auth_args (self s3)))))
              = true).
    { intros s3 ->. rewrite Hsame.
      cbn [self set_auth_args auth_args set_data args_data]. rewrite dict_get_set.
      cbn [String.eqb Ascii.eqb Bool.eqb default from_option id truthy]. simpl.
      apply String.eqb_neq in Hc. rewrite Hc. reflexivity. }
    unfold request_token, mbind, M_bind. unfold bind at 1 2 3. cbn [log fst snd].
    set (s3 := {| self := self s2; world := _ |}).
    rewrite (request_token_skips_user s3) by (apply Hcode; reflexivity).
    pose (f := fun s : state => (auth_args (self s), redirects (world s))).
    assert (Hkeep : preserves f (request_token_body false AuthArgs)).
    { unfold request_token_body, post, deref, mbind, M_bind. cbn [andb]. preserves_tac. }
    specialize (Hkeep s3). injection Hkeep as -> ->.
    repeat split.
    destruct (emits_request_token_body unattended (fun _ => eq_refl) false AuthArgs
                ltac:(discriminate) s3) as (evs & Htrace & Hquiet).
    exists (EvRequestToken true AuthArgs :: evs). rewrite Htrace.
    cbn [s3 world trace]. rewrite <- app_assoc. split; [reflexivity | exact Hquiet].
Qed.

Lemma authorisation_code_kept_witness :
  exists s1,
    _auth_user AuthArgs (Samples.auth_state None [Ok (PStr "page")]) = (Ok tt, s1)
    /\ dict_get "code" (args_data (auth_args (self s1)))
       = Some (PStr "code-from-the-browser")
    /\ redirects (world (snd (request_token true AuthArgs s1))) = redirects (world s1).
Proof.
  destruct (authorisation_code_kept (Samples.auth_state None [Ok (PStr "page")])
              {| args_url := "https://accounts.spotify.com/authorize";
                 args_params := [("response_type", PStr "code")];
                 args_data := [] |}
              (PStr "page") [] "code-from-the-browser" [])
    as (s1 & Hrun & Hcode & Hlater);
    [reflexivity | reflexivity | reflexivity | discriminate |].
  exists s1. split; [exact Hrun|]. split; [exact Hcode|].
  destruct (Hlater s1 eq_refl) as (_ & Hredirects & _). exact Hredirects.
Defined.


(** X21. With no token held and no token file to load — no path given,
    or nothing stored at the path — [auth()] proceeds exactly as
    [auth(force_new=True)] does. *)
Theorem auth_without_token `{JsonLib} (force_load : bool) (s : state) :
  token (self s) = None ->
  (token_file_path (self s) = None
   \/ exists path, token_file_path (self s) = Some path /\ files (world s) !! path = None) ->
  auth force_load false s = auth force_load true s.
Proof.
  intros Htok Hfile.
  assert (Hload : load_token s = (Ok None, s)).
  { unfold load_token, mbind, M_bind.
    rewrite (bind_ok get_self _ s s (self s) eq_refl).
    destruct Hfile as [-> | (path & -> & Hnone)].
    - rewrite (bind_ok (ret tt) _ s s tt eq_refl).
      rewrite (bind_ok get_self _ s s (self s) eq_refl). rewrite Htok. reflexivity.
    - unfold bind at 1. rewrite Hnone.
      rewrite (bind_ok get_self _ s s (self s) eq_refl). rewrite Htok. reflexivity. }
  unfold auth, mbind, M_bind.
  rewrite !(bind_ok get_self _ s s (self s) eq_refl).
  rewrite Htok. simpl bool_decide. cbn [negb orb andb].
  rewrite bind_assoc, (bind_ok load_token _ s s None Hload).
  rewrite !(bind_ok (ret tt) _ s s tt eq_refl).
  rewrite !(bind_ok get_self _ s s (self s) eq_refl).
  rewrite Htok. reflexivity.
Qed.

Lemma auth_without_token_witness :
  auth false false {| self := set_token (Samples.authoriser None) None;
                      world := Samples.outside [Ok (PStr "page"); Ok Samples.granted] |}
  = auth false true {| self := set_token (Samples.authoriser None) None;
                       world := Samples.outside [Ok (PStr "page"); Ok Samples.granted] |}.
Proof.
  apply (auth_without_token false); [reflexivity | left; reflexivity].
Defined.

End AuthoriserMore.
